(** * Gateway MQTT publisher: a shallow embedding of
      [log-publisher/gateway-mqtt-publisher.py] and the properties of its
      polling loop, log parser and TTN status normaliser.

    Conventions.
    - The text of the Docker log, which is decoded from UTF-8 and may hold
      any character, is a [text]: the list of its code points.  The other
      values of type [str] (settings, topics, JSON strings) are [string]s,
      a character standing for the code point of the same number (0..255).
    - Values that come out of [r.json()] are [json] terms; [None] is [JNull].
    - A Python call that can raise returns a [result]; code with output
      (prints, publishes, sleeps) runs in the trace monad [M].
    - Everything the program reads from its environment (the Docker daemon,
      the HTTP endpoint, the MQTT client, the clocks, the interpreter's
      [datetime.fromisoformat]) is an explicit argument. *)

From Stdlib Require Import String Ascii List ZArith QArith Bool Lia Lqa.
From Stdlib Require Import Permutation.
Import ListNotations.

Local Open Scope string_scope.
Local Open Scope Z_scope.

(* ------------------------------------------------------------------------- *)
(** ** Exceptions and results *)

(** The subclasses of [Exception] the program can meet.  The last three stand
    for what the Docker SDK, [requests] and the MQTT client raise. *)
Inductive exn : Type :=
| ValueError
| TypeError
| AttributeError
| OverflowError
| DockerError (what : string)
| RequestError (what : string)
| MqttError (what : string).

Inductive result (A : Type) : Type :=
| Ok (a : A)
| Raise (e : exn).
Arguments Ok {A} a.
Arguments Raise {A} e.

Definition rbind {A B : Type} (r : result A) (k : A -> result B) : result B :=
  match r with
  | Ok a => k a
  | Raise e => Raise e
  end.

(* ------------------------------------------------------------------------- *)
(** ** Python strings *)

Definition ord (c : ascii) : N := N_of_ascii c.

(** Truth value of a [str]: non-empty. *)
Definition str_truthy (s : string) : bool :=
  match s with
  | EmptyString => false
  | String _ _ => true
  end.

(** [needle in hay] *)
Fixpoint contains (needle hay : string) : bool :=
  prefix needle hay
  || match hay with
     | EmptyString => false
     | String _ t => contains needle t
     end.

(** [s.replace(old, new)] for a non-empty [old], scanning left to right;
    [skip] counts the characters of a match still to be dropped.  The program
    calls it with [old = "Z"] only. *)
Fixpoint replace_from (old new : string) (skip : nat) (s : string) : string :=
  match s with
  | EmptyString => EmptyString
  | String c t =>
      match skip with
      | S k => replace_from old new k t
      | O =>
          if prefix old s
          then new ++ replace_from old new (String.length old - 1) t
          else String c (replace_from old new 0 t)
      end
  end.

Definition replace (old new s : string) : string := replace_from old new 0 s.

(* ------------------------------------------------------------------------- *)
(** ** Decoded text *)

(** A [str] as the list of its code points. *)
Definition text : Type := list N.

(** The text of a literal of the program. *)
Fixpoint text_of_string (s : string) : text :=
  match s with
  | EmptyString => []
  | String c t => ord c :: text_of_string t
  end.

(** Truth value of a [str]: non-empty. *)
Definition text_truthy (t : text) : bool :=
  match t with
  | [] => false
  | _ :: _ => true
  end.

(** [str.isspace] on one character: TAB..CR, FS..US, SPACE, NEL, NBSP,
    U+1680, U+2000..U+200A, U+2028, U+2029, U+202F, U+205F, U+3000. *)
Definition isspace (c : N) : bool :=
  ((9 <=? c) && (c <=? 13) || (28 <=? c) && (c <=? 32)
   || (c =? 133) || (c =? 160) || (c =? 5760)
   || (8192 <=? c) && (c <=? 8202)
   || (c =? 8232) || (c =? 8233) || (c =? 8239) || (c =? 8287)
   || (c =? 12288))%N.

Fixpoint lstrip (s : text) : text :=
  match s with
  | [] => []
  | c :: t => if isspace c then lstrip t else s
  end.

Fixpoint rstrip (s : text) : text :=
  match s with
  | [] => []
  | c :: t =>
      match rstrip t with
      | [] => if isspace c then [] else [c]
      | t' => c :: t'
      end
  end.

(** [s.strip()] *)
Definition strip (s : text) : text := rstrip (lstrip s).

(** [hay.startswith(needle)] *)
Fixpoint starts_with (needle hay : text) : bool :=
  match needle, hay with
  | [], _ => true
  | _ :: _, [] => false
  | a :: needle', b :: hay' => (a =? b)%N && starts_with needle' hay'
  end.

(** [needle in hay] *)
Fixpoint text_contains (needle hay : text) : bool :=
  starts_with needle hay
  || match hay with
     | [] => false
     | _ :: t => text_contains needle t
     end.

(** Line boundaries of [str.splitlines]: LF, VT, FF, CR, FS, GS, RS, NEL,
    LS (U+2028), PS (U+2029) (and CR LF as one boundary). *)
Definition is_linebreak (c : N) : bool :=
  ((10 <=? c) && (c <=? 13) || (28 <=? c) && (c <=? 30) || (c =? 133)
   || (c =? 8232) || (c =? 8233))%N.

Definition LF : N := 10.
Definition CR : N := 13.

(** [splitlines_from cur s]: the lines of [cur + s], where [cur] is the part
    of the current line already read. *)
Fixpoint splitlines_from (cur s : text) : list text :=
  match s with
  | [] =>
      match cur with
      | [] => []
      | _ => [cur]
      end
  | c :: t =>
      if is_linebreak c then
        cur :: match t with
               | c' :: t' =>
                   if (c =? CR)%N && (c' =? LF)%N
                   then splitlines_from [] t'
                   else splitlines_from [] t
               | [] => splitlines_from [] t
               end
      else splitlines_from (cur ++ [c])%list t
  end.

(** [s.splitlines()] *)
Definition splitlines (s : text) : list text :=
  splitlines_from [] s.

(* ------------------------------------------------------------------------- *)
(** ** JSON values and [int()] *)

(** A Python [float]: a finite value is a rational. *)
Inductive pyfloat : Type :=
| FFinite (q : Q)
| FInf (negative : bool)
| FNaN.

(** What [json.loads] builds.  An object is the [dict] after loading: keys
    are distinct and [dict_get] finds the value of a key. *)
#[warnings="-register-all"]
Inductive json : Type :=
| JNull
| JBool (b : bool)
| JInt (n : Z)
| JFloat (f : pyfloat)
| JStr (s : string)
| JArr (items : list json)
| JObj (fields : list (string * json)).

(** Truth value, as [if not data] and [if last_up] test it. *)
Definition truthy (v : json) : bool :=
  match v with
  | JNull => false
  | JBool b => b
  | JInt n => negb (n =? 0)
  | JFloat (FFinite q) => negb (Qeq_bool q 0)
  | JFloat _ => true
  | JStr s => str_truthy s
  | JArr items => match items with [] => false | _ => true end
  | JObj fields => match fields with [] => false | _ => true end
  end.

Fixpoint dict_get (fields : list (string * json)) (key : string)
  (default : json) : json :=
  match fields with
  | [] => default
  | (k, v) :: rest => if String.eqb k key then v else dict_get rest key default
  end.

(** [data.get(key, default)]: only a [dict] has the method. *)
Definition get (data : json) (key : string) (default : json) : result json :=
  match data with
  | JObj fields => Ok (dict_get fields key default)
  | _ => Raise AttributeError
  end.

Definition is_digit (c : ascii) : bool :=
  let n := ord c in ((48 <=? n) && (n <=? 57))%N.

Definition digit_value (c : ascii) : Z := Z.of_N (ord c) - 48.

(** Whitespace that [int(str)] strips: TAB..CR, SPACE, NEL, NBSP (not
    FS..US). *)
Definition int_space (c : ascii) : bool :=
  let n := ord c in
  ((9 <=? n) && (n <=? 13) || (n =? 32) || (n =? 133) || (n =? 160))%N.

Fixpoint int_lstrip (s : string) : string :=
  match s with
  | EmptyString => EmptyString
  | String c t => if int_space c then int_lstrip t else s
  end.

Fixpoint int_rstrip (s : string) : string :=
  match s with
  | EmptyString => EmptyString
  | String c t =>
      match int_rstrip t with
      | EmptyString => if int_space c then EmptyString else String c EmptyString
      | t' => String c t'
      end
  end.

(** Digits with single underscores between them; returns the value and the
    number of digits read. *)
Fixpoint parse_decimal (s : string) (acc : Z) (ndigits : nat)
  (after_digit : bool) : option (Z * nat) :=
  match s with
  | EmptyString => if after_digit then Some (acc, ndigits) else None
  | String c t =>
      if is_digit c
      then parse_decimal t (10 * acc + digit_value c) (S ndigits) true
      else if Ascii.eqb c "_" && after_digit
           then parse_decimal t acc ndigits false
           else None
  end.

(** [sys.get_int_max_str_digits()], the default of CPython 3.11 and later. *)
Definition int_max_str_digits : nat := 4300.

(** [int(s)] for a [str], base 10. *)
Definition int_of_str (s : string) : result Z :=
  let body := int_rstrip (int_lstrip s) in
  let '(sign, digits) :=
    match body with
    | String "-" t => (-1, t)
    | String "+" t => (1, t)
    | _ => (1, body)
    end in
  match parse_decimal digits 0 0 false with
  | Some (n, k) =>
      if Nat.leb k int_max_str_digits then Ok (sign * n) else Raise ValueError
  | None => Raise ValueError
  end.

(** [int(x)] for a float: truncation towards zero. *)
Definition int_of_float (f : pyfloat) : result Z :=
  match f with
  | FFinite q => Ok (Z.quot (Qnum q) (Zpos (Qden q)))
  | FInf _ => Raise OverflowError
  | FNaN => Raise ValueError
  end.

(** [int(v)] *)
Definition py_int (v : json) : result Z :=
  match v with
  | JNull => Raise TypeError
  | JBool b => Ok (if b then 1 else 0)
  | JInt n => Ok n
  | JFloat f => int_of_float f
  | JStr s => int_of_str s
  | JArr _ => Raise TypeError
  | JObj _ => Raise TypeError
  end.


(* ------------------------------------------------------------------------- *)
(** ** [datetime] *)

(** A [datetime]: the wall-clock fields as microseconds since
    0001-01-01T00:00:00, and the UTC offset in microseconds of an aware value
    ([None] for a naive one). *)
Record datetime : Type := {
  wall_us : Z;
  utcoffset : option Z
}.

(** [datetime.now(timezone.utc)] when the UTC clock reads [utcnow]. *)
Definition now_utc (utcnow : Z) : datetime :=
  {| wall_us := utcnow; utcoffset := Some 0 |}.

(** [a - b], a [timedelta] in microseconds; aware and naive values do not
    mix. *)
Definition dt_sub (a b : datetime) : result Z :=
  match utcoffset a, utcoffset b with
  | None, None => Ok (wall_us a - wall_us b)
  | Some oa, Some ob => Ok ((wall_us a - oa) - (wall_us b - ob))
  | _, _ => Raise TypeError
  end.

(** [num / den] rounded to the nearest integer, ties to the even one. *)
Definition half_even (num den : Z) : Z :=
  let q := num / den in
  match 2 * (num mod den) ?= den with
  | Lt => q
  | Gt => q + 1
  | Eq => if Z.even q then q else q + 1
  end.

(** The exponent [e] of the unit in the last place of the float nearest to
    [n / 10^6], for [n > 0], on the scale [2^-72]: the 53-bit significand
    [m] of that float satisfies [n / 10^6 ~ m * 2^e / 2^72].  (The smallest
    positive value, one microsecond, has [e = 0]; no subnormal occurs.) *)
Definition double_exponent (n : Z) : Z :=
  Z.log2 (n * 2 ^ 72 / 1000000) - 52.

(** The float nearest to [n / 10^6] (IEEE 754 binary64, round half to even),
    as a multiple of [2^-72]. *)
Definition double_of_micros (n : Z) : Z :=
  let e := double_exponent n in
  half_even (n * 2 ^ 72) (1000000 * 2 ^ e) * 2 ^ e.

(** [td.total_seconds()]: the true division [microseconds / 10**6] of two
    integers, which Python rounds correctly to the nearest float.  The float
    is returned as the rational number it denotes. *)
Definition total_seconds (td : Z) : Q :=
  match td with
  | Z0 => 0
  | Zpos _ => double_of_micros td # (2 ^ 72)
  | Zneg p => - (double_of_micros (Zpos p) # (2 ^ 72))
  end.

(** *** A parser for the RFC 3339 profile

    [datetime.fromisoformat] itself is an argument of [parse_ttn_stats]: the
    set of strings it accepts grew between CPython releases.  The function
    below reads [YYYY-MM-DD?HH:MM:SS[.fff[fff]][(+|-)HH:MM]], the shape of TTN
    timestamps once [Z] is replaced, on which all releases since 3.7 agree;
    it rejects every other string and serves to run the program on concrete
    timestamps. *)

Fixpoint read_digits (n : nat) (acc : Z) (s : string) : option (Z * string) :=
  match n with
  | O => Some (acc, s)
  | S k =>
      match s with
      | String c t =>
          if is_digit c then read_digits k (10 * acc + digit_value c) t
          else None
      | EmptyString => None
      end
  end.

Definition expect (c : ascii) (s : string) : option string :=
  match s with
  | String c' t => if Ascii.eqb c c' then Some t else None
  | EmptyString => None
  end.

Definition is_leap (y : Z) : bool :=
  (y mod 4 =? 0) && (negb (y mod 100 =? 0) || (y mod 400 =? 0)).

Definition days_in_month (y m : Z) : Z :=
  if m =? 2 then (if is_leap y then 29 else 28)
  else if (m =? 4) || (m =? 6) || (m =? 9) || (m =? 11) then 30
  else 31.

Definition days_before_year (y : Z) : Z :=
  let p := y - 1 in p * 365 + p / 4 - p / 100 + p / 400.

Definition days_before_month (y m : Z) : Z :=
  fold_left (fun acc k => acc + days_in_month y (Z.of_nat k))
            (seq 1 (Z.to_nat m - 1)) 0.

(** [date(y, m, d).toordinal()]: 0001-01-01 is day 1. *)
Definition ymd2ord (y m d : Z) : Z :=
  days_before_year y + days_before_month y m + d.

Definition in_range (lo x hi : Z) : bool := (lo <=? x) && (x <=? hi).

Notation "'let?' x ':=' e 'in' k" :=
  (match e with Some x => k | None => None end)
  (at level 10, x pattern, e at level 200, k at level 200).

(** Optional fraction: [.fff] or [.ffffff], in microseconds. *)
Definition read_fraction (s : string) : option (Z * string) :=
  match s with
  | String "." t =>
      match read_digits 6 0 t with
      | Some r => Some r
      | None =>
          let? (ms, rest) := read_digits 3 0 t in
          Some (ms * 1000, rest)
      end
  | _ => Some (0, s)
  end.

(** Optional offset: nothing (naive) or [(+|-)HH:MM] up to the end. *)
Definition read_offset (s : string) : option (option Z) :=
  match s with
  | EmptyString => Some None
  | String c t =>
      let? sign := (if Ascii.eqb c "+" then Some 1
                else if Ascii.eqb c "-" then Some (-1) else None) in
      let? (hh, t1) := read_digits 2 0 t in
      let? t2 := expect ":" t1 in
      let? (mm, t3) := read_digits 2 0 t2 in
      match t3 with
      | EmptyString =>
          if in_range 0 hh 23 && in_range 0 mm 59
          then Some (Some (sign * (hh * 3600 + mm * 60) * 1000000))
          else None
      | _ => None
      end
  end.

Definition parse_rfc3339 (s : string) : option datetime :=
  let? (y, s1) := read_digits 4 0 s in
  let? s2 := expect "-" s1 in
  let? (m, s3) := read_digits 2 0 s2 in
  let? s4 := expect "-" s3 in
  let? (d, s5) := read_digits 2 0 s4 in
  match s5 with
  | String _sep s6 =>
      let? (hh, s7) := read_digits 2 0 s6 in
      let? s8 := expect ":" s7 in
      let? (mi, s9) := read_digits 2 0 s8 in
      let? s10 := expect ":" s9 in
      let? (ss, s11) := read_digits 2 0 s10 in
      let? (us, s12) := read_fraction s11 in
      let? off := read_offset s12 in
      if in_range 1 y 9999 && in_range 1 m 12
         && in_range 1 d (days_in_month y m)
         && in_range 0 hh 23 && in_range 0 mi 59 && in_range 0 ss 59
      then
        let day_index := ymd2ord y m d in
        Some {| wall_us :=
                  (((day_index * 24 + hh) * 60 + mi) * 60 + ss) * 1000000 + us;
                utcoffset := off |}
      else None
  | EmptyString => None
  end.

Definition fromisoformat_rfc3339 (s : string) : result datetime :=
  match parse_rfc3339 s with
  | Some t => Ok t
  | None => Raise ValueError
  end.

(* ------------------------------------------------------------------------- *)
(** ** Output traces *)

Inductive callee : Type :=
| Fetch_ttn_stats
| Get_gateway_stats.

(** The lines the program prints (their wording and time prefix left out). *)
Inductive report : Type :=
| DebugGotLines (n : nat)
| ErrDockerLogs (e : exn)
| DebugFoundRx (line : text)
| DebugFoundTx (line : text)
| DebugLocalStats (rx_total tx_total : Z) (connected : bool)
| ErrLocalStats (e : exn)
| DebugTtnIncomplete
| Url (url : string)
| DebugTtnRaw (data : json)
| ErrFetchTtn (e : exn)
| TtnLine (up down : Z) (connected : option bool)
| ShuttingDown
| ErrPublishLoop (e : exn).

(** What a run leaves behind.  [Called f] marks an entry into [f], so that
    the runs of a chain can be counted; every publish is retained. *)
Inductive effect : Type :=
| Called (f : callee)
| Print (what : report)
| Publish (topic : string) (payload : json)
| Sleep (seconds : Z).

(** A computation: the effects so far, and a value or the exception that
    stopped it. *)
Definition M (A : Type) : Type := (list effect * result A)%type.

Definition ret {A : Type} (a : A) : M A := ([], Ok a).

Definition bind {A B : Type} (m : M A) (k : A -> M B) : M B :=
  match m with
  | (tr, Ok a) => let '(tr', r) := k a in ((tr ++ tr')%list, r)
  | (tr, Raise e) => (tr, Raise e)
  end.

Definition emit (e : effect) : M unit := ([e], Ok tt).

Definition lift {A : Type} (r : result A) : M A := ([], r).

Definition when (b : bool) (m : M unit) : M unit := if b then m else ret tt.

(** [try: body except Exception as e: handler(e)] *)
Definition try_except {A : Type} (body : M A) (handler : exn -> M A) : M A :=
  match body with
  | (tr, Ok a) => (tr, Ok a)
  | (tr, Raise e) => let '(tr', r) := handler e in ((tr ++ tr')%list, r)
  end.

Notation "x <- m ;; k" := (bind m (fun x => k))
  (at level 61, m at next level, right associativity).
Notation "m ;; k" := (bind m (fun _ => k))
  (at level 61, right associativity).

(* ------------------------------------------------------------------------- *)
(** ** Configuration and environment *)

(** The module-level settings the functions below read. *)
Record config : Type := {
  TOPIC_PREFIX : string;
  BASICSTATION_CONTAINER : string;
  DEBUG : bool;
  TTN_CLUSTER : string;
  TTN_GATEWAY_ID : string;
  TTN_API_KEY : string
}.

(** [docker_client.containers.get(name).logs(tail=n).decode("utf-8",
    errors="ignore")]: the decoded text, or what the SDK raised. *)
Definition docker_api : Type := string -> Z -> result text.

(** [client.publish(topic, payload, retain=True)]: accepted, or what the
    client raised. *)
Definition mqtt_client : Type := string -> json -> result unit.

(* ------------------------------------------------------------------------- *)
(** ** Docker log helpers *)

Definition get_docker_logs (cfg : config) (docker : docker_api)
  (container_name : string) (tail_lines : Z) : M (list text) :=
  try_except
    (raw <- lift (docker container_name tail_lines) ;;
     let lines := splitlines raw in
     when (DEBUG cfg) (emit (Print (DebugGotLines (List.length lines)))) ;;
     ret lines)
    (fun e => emit (Print (ErrDockerLogs e)) ;; ret []).

(* ------------------------------------------------------------------------- *)
(** ** Parsing Basic Station logs *)

(** ["[S2E:" in line and " RX " in line] *)
Definition is_rx (line : text) : bool :=
  text_contains (text_of_string "[S2E:") line
  && text_contains (text_of_string " RX ") line.

(** ["[S2E:" in line and " TX " in line] *)
Definition is_tx (line : text) : bool :=
  text_contains (text_of_string "[S2E:") line
  && text_contains (text_of_string " TX ") line.

Record counts : Type := { rx : Z; tx : Z }.

(** The [for] loop of [parse_log_lines], from the counters reached so far. *)
Fixpoint parse_log_lines_from (debug : bool) (lines : list text)
  (rx_count tx_count : Z) : M counts :=
  match lines with
  | [] => ret {| rx := rx_count; tx := tx_count |}
  | line :: rest =>
      if negb (text_truthy (strip line))
      then parse_log_lines_from debug rest rx_count tx_count
      else
        rx_count' <-
          (if is_rx line
           then when debug
                  (emit (Print (DebugFoundRx (firstn 120 line)))) ;;
                ret (rx_count + 1)
           else ret rx_count) ;;
        tx_count' <-
          (if is_tx line
           then when debug
                  (emit (Print (DebugFoundTx (firstn 120 line)))) ;;
                ret (tx_count + 1)
           else ret tx_count) ;;
        parse_log_lines_from debug rest rx_count' tx_count'
  end.

Definition parse_log_lines (debug : bool) (lines : list text) : M counts :=
  parse_log_lines_from debug lines 0 0.

Record local_stats : Type := {
  rx_total : Z;
  tx_total : Z;
  local_connected : bool;
  timestamp : string
}.

(** [lines[-50:] if lines else []] *)
Definition recent (lines : list text) : list text :=
  match lines with
  | [] => []
  | _ => skipn (List.length lines - 50) lines
  end.

(** The body of [get_gateway_stats] once the lines are fetched; [stamp] is
    [datetime.now().isoformat()]. *)
Definition gateway_stats_of_lines (debug : bool) (stamp : string)
  (lines : list text) : M local_stats :=
  stats <- parse_log_lines debug lines ;;
  let recent_lines := recent lines in
  let has_rx_recent := existsb is_rx recent_lines in
  let connected := has_rx_recent in
  when debug
    (emit (Print (DebugLocalStats (rx stats) (tx stats) connected))) ;;
  ret {| rx_total := rx stats;
         tx_total := tx stats;
         local_connected := connected;
         timestamp := stamp |}.

Definition get_gateway_stats (cfg : config) (docker : docker_api)
  (stamp : string) (container_name : string) : M local_stats :=
  emit (Called Get_gateway_stats) ;;
  try_except
    (lines <- get_docker_logs cfg docker container_name 100 ;;
     gateway_stats_of_lines (DEBUG cfg) stamp lines)
    (fun e =>
       emit (Print (ErrLocalStats e)) ;;
       ret {| rx_total := 0;
              tx_total := 0;
              local_connected := false;
              timestamp := stamp |}).

(* ------------------------------------------------------------------------- *)
(** ** TTN status (HTTP API) *)

Notation "'let!' x ':=' e 'in' k" := (rbind e (fun x => k))
  (at level 10, x name, e at level 200, k at level 200).

(** [requests.get(url, headers=..., timeout=5)], [raise_for_status()] and
    [r.json()]: the decoded document, or what was raised on the way. *)
Definition http_reply : Type := result json.

Definition fetch_ttn_stats (cfg : config) (http : http_reply) : M json :=
  emit (Called Fetch_ttn_stats) ;;
  if negb (str_truthy (TTN_CLUSTER cfg) && str_truthy (TTN_GATEWAY_ID cfg)
           && str_truthy (TTN_API_KEY cfg))
  then
    when (DEBUG cfg) (emit (Print DebugTtnIncomplete)) ;;
    ret JNull
  else
    let url :=
      "https://" ++ TTN_CLUSTER cfg
      ++ ".cloud.thethings.network/api/v3/gs/gateways/"
      ++ TTN_GATEWAY_ID cfg ++ "/connection/stats" in
    emit (Print (Url url)) ;;
    try_except
      (data <- lift http ;;
       when (DEBUG cfg) (emit (Print (DebugTtnRaw data))) ;;
       ret data)
      (fun e => emit (Print (ErrFetchTtn e)) ;; ret JNull).

Record ttn_stats : Type := {
  uplink_count : Z;
  downlink_count : Z;
  last_uplink_received_at : json;
  last_downlink_received_at : json;
  connected : bool
}.

Section Interpreter.

(** [datetime.fromisoformat] of the interpreter that runs the program. *)
Variable fromisoformat : string -> result datetime.

(** The body of the [try] in [parse_ttn_stats]; [utcnow] is the reading of
    [datetime.now(timezone.utc)] in microseconds. *)
Definition age_check (last_up : json) (uplink : Z) (max_age_seconds : Q)
  (utcnow : Z) : result bool :=
  match last_up with
  | JStr s =>
      let! t_last := fromisoformat (replace "Z" "+00:00" s) in
      let! age := dt_sub (now_utc utcnow) t_last in
      Ok (Qle_bool (total_seconds age) max_age_seconds && (uplink >? 0))
  | _ => Raise AttributeError
  end.

Definition parse_ttn_stats (data : json) (max_age_seconds : Q)
  (utcnow : Z) : result ttn_stats :=
  if negb (truthy data) then
    Ok {| uplink_count := 0;
          downlink_count := 0;
          last_uplink_received_at := JStr "";
          last_downlink_received_at := JStr "";
          connected := false |}
  else
    let! uplink_raw := get data "uplink_count" (JInt 0) in
    let! uplink := py_int uplink_raw in
    let! downlink_raw := get data "downlink_count" (JInt 0) in
    let! downlink := py_int downlink_raw in
    let! last_up := get data "last_uplink_received_at" (JStr "") in
    let! last_down := get data "last_downlink_received_at" (JStr "") in
    let connected :=
      if truthy last_up then
        match age_check last_up uplink max_age_seconds utcnow with
        | Ok c => c
        | Raise _ => uplink >? 0
        end
      else false in
    Ok {| uplink_count := uplink;
          downlink_count := downlink;
          last_uplink_received_at := last_up;
          last_downlink_received_at := last_down;
          connected := connected |}.

(* ----------------------------------------------------------------------- *)
(** ** Main loop *)

(** What one run of a TTN block meets outside the program. *)
Record remote_env : Type := {
  env_http : http_reply;
  env_utcnow : Z;
  env_stamp : string;            (* [datetime.now().isoformat()] *)
  env_client : mqtt_client
}.

Definition publish (client : mqtt_client) (topic : string) (payload : json)
  : M unit :=
  match client topic payload with
  | Ok _ => emit (Publish topic payload)
  | Raise e => lift (Raise e)
  end.

Definition flag (b : bool) : json := JStr (if b then "1" else "0").

(** Lines 235-267: returns the new value of [last_ttn]. *)
Definition ttn_block_1 (cfg : config) (env : remote_env)
  (ttn_interval now last_ttn : Q) : M Q :=
  if Qle_bool ttn_interval (now - last_ttn) then
    ttn_raw <- fetch_ttn_stats cfg (env_http env) ;;
    ttn <- lift (parse_ttn_stats ttn_raw 600 (env_utcnow env)) ;;
    let pub := publish (env_client env) in
    pub (TOPIC_PREFIX cfg ++ "/ttn/uplink_count") (JInt (uplink_count ttn)) ;;
    pub (TOPIC_PREFIX cfg ++ "/ttn/downlink_count")
        (JInt (downlink_count ttn)) ;;
    pub (TOPIC_PREFIX cfg ++ "/ttn/last_uplink_received_at")
        (last_uplink_received_at ttn) ;;
    pub (TOPIC_PREFIX cfg ++ "/ttn/last_downlink_received_at")
        (last_downlink_received_at ttn) ;;
    pub (TOPIC_PREFIX cfg ++ "/ttn/connected") (flag (connected ttn)) ;;
    pub (TOPIC_PREFIX cfg ++ "/ttn/last_update") (JStr (env_stamp env)) ;;
    emit (Print (TtnLine (uplink_count ttn) (downlink_count ttn)
                         (Some (connected ttn)))) ;;
    ret now
  else ret last_ttn.

(** Lines 269-304: the same guard and chain, without the [connected]
    topic. *)
Definition ttn_block_2 (cfg : config) (env : remote_env)
  (ttn_interval now last_ttn : Q) : M Q :=
  if Qle_bool ttn_interval (now - last_ttn) then
    ttn_raw <- fetch_ttn_stats cfg (env_http env) ;;
    ttn <- lift (parse_ttn_stats ttn_raw 600 (env_utcnow env)) ;;
    let pub := publish (env_client env) in
    pub (TOPIC_PREFIX cfg ++ "/ttn/uplink_count") (JInt (uplink_count ttn)) ;;
    pub (TOPIC_PREFIX cfg ++ "/ttn/downlink_count")
        (JInt (downlink_count ttn)) ;;
    pub (TOPIC_PREFIX cfg ++ "/ttn/last_uplink_received_at")
        (last_uplink_received_at ttn) ;;
    pub (TOPIC_PREFIX cfg ++ "/ttn/last_downlink_received_at")
        (last_downlink_received_at ttn) ;;
    pub (TOPIC_PREFIX cfg ++ "/ttn/last_update") (JStr (env_stamp env)) ;;
    emit (Print (TtnLine (uplink_count ttn) (downlink_count ttn) None)) ;;
    ret now
  else ret last_ttn.

(** The two timestamps the loop keeps between iterations. *)
Record sched : Type := {
  last_local : Q;
  last_ttn : Q
}.

(** One iteration and what it meets: the reading of [time.time()], the
    environment of each TTN block, and whether [KeyboardInterrupt] arrives
    while the iteration sleeps: in the [time.sleep(1)] that ends the [try]
    body, or in the [time.sleep(5)] of the [except Exception] handler when
    the body raised. *)
Record tick : Type := {
  tk_time : Q;
  tk_first : remote_env;
  tk_second : remote_env;
  tk_interrupt : bool
}.

(** How an iteration ends: the loop goes on, [break] leaves it, or a
    [KeyboardInterrupt] that no handler catches leaves [publish_stats]. *)
Inductive control : Type :=
| Continue
| Break
| Propagate.

Definition set_last_ttn (st : sched) (t : Q) : sched :=
  {| last_local := last_local st; last_ttn := t |}.

(** The [try] body of an iteration up to its [time.sleep(1)] (lines
    233-304): what it leaves in the trace, the timestamps it has reached,
    and the exception that ends it, if one does.  [local_interval] and
    [last_local] are assigned before the loop and never read. *)
Definition loop_try (cfg : config) (ttn_interval : Q) (tk : tick)
  (st : sched) : list effect * sched * option exn :=
  let now := tk_time tk in
  let '(tr1, r1) :=
    ttn_block_1 cfg (tk_first tk) ttn_interval now (last_ttn st) in
  match r1 with
  | Raise e => (tr1, st, Some e)
  | Ok last1 =>
      let st1 := set_last_ttn st last1 in
      let '(tr2, r2) :=
        ttn_block_2 cfg (tk_second tk) ttn_interval now (last_ttn st1) in
      match r2 with
      | Raise e => ((tr1 ++ tr2)%list, st1, Some e)
      | Ok last2 => ((tr1 ++ tr2)%list, set_last_ttn st1 last2, None)
      end
  end.

(** The body of [while True] (lines 232-313).  An interrupted sleep leaves
    no [Sleep] in the trace.  [except KeyboardInterrupt] guards the [try]
    body only: raised in the [time.sleep(5)] of the other handler, the
    interrupt is caught by nothing in [publish_stats]. *)
Definition loop_body (cfg : config) (local_interval ttn_interval : Q)
  (tk : tick) (st : sched) : list effect * sched * control :=
  let '(tr, st', raised) := loop_try cfg ttn_interval tk st in
  match raised with
  | None =>
      if tk_interrupt tk
      then ((tr ++ [Print ShuttingDown])%list, st', Break)
      else ((tr ++ [Sleep 1])%list, st', Continue)
  | Some e =>
      if tk_interrupt tk
      then ((tr ++ [Print (ErrPublishLoop e)])%list, st', Propagate)
      else ((tr ++ [Print (ErrPublishLoop e); Sleep 5])%list, st', Continue)
  end.

(** The loop over the iterations given; one trace per iteration run. *)
Fixpoint run_loop (cfg : config) (local_interval ttn_interval : Q)
  (ticks : list tick) (st : sched) : list (list effect) * sched :=
  match ticks with
  | [] => ([], st)
  | tk :: rest =>
      let '(tr, st', c) := loop_body cfg local_interval ttn_interval tk st in
      match c with
      | Continue =>
          let '(trs, st'') :=
            run_loop cfg local_interval ttn_interval rest st' in
          (tr :: trs, st'')
      | Break | Propagate => ([tr], st')
      end
  end.

(** A scheduler that has not fired yet: [last_local = last_ttn = 0.0]. *)
Definition fresh : sched := {| last_local := 0; last_ttn := 0 |}.

(** [publish_stats] from line 226 (the broker is connected) to the exit of
    the loop. *)
Definition publish_stats (cfg : config) (ticks : list tick)
  : list (list effect) * sched :=
  run_loop cfg 5 10 ticks fresh.

End Interpreter.

(** How often [f] was entered in a trace. *)
Definition fired (f : callee) (tr : list effect) : nat :=
  List.length
    (filter (fun e =>
               match e, f with
               | Called Fetch_ttn_stats, Fetch_ttn_stats => true
               | Called Get_gateway_stats, Get_gateway_stats => true
               | _, _ => false
               end) tr).

(* ------------------------------------------------------------------------- *)
(** ** Notions used to state the properties *)

Definition trace {A : Type} (m : M A) : list effect := fst m.
Definition value {A : Type} (m : M A) : result A := snd m.

(** A line of whitespace only. *)
Fixpoint blank (s : text) : bool :=
  match s with
  | [] => true
  | c :: t => isspace c && blank t
  end.

(** Number of lines that satisfy [p]. *)
Definition count (p : text -> bool) (lines : list text) : Z :=
  Z.of_nat (List.length (filter p lines)).

(** A line boundary of [str.splitlines] occurs in the text. *)
Fixpoint has_linebreak (s : text) : bool :=
  match s with
  | [] => false
  | c :: t => is_linebreak c || has_linebreak t
  end.

(** The text of a list of lines, each ended by LF. *)
Fixpoint join_lines (entries : list text) : text :=
  match entries with
  | [] => []
  | l :: rest => (l ++ LF :: join_lines rest)%list
  end.

(** Modelled from the spec: the external log source, "a function that
    returns the last N lines of text from a named running process"
    (sections 1 and 6; the Docker daemon is not part of the repository).
    [store] maps a container name to the lines it has written so far; a line
    holds no LF but may hold any other character.  An unknown name fails. *)
Definition last_n_lines (store : string -> option (list text))
  : docker_api :=
  fun name n =>
    match store name with
    | None => Raise (DockerError "No such container")
    | Some written =>
        Ok (join_lines (skipn (List.length written - Z.to_nat n) written))
    end.

(** The [connected] flag as [parse_ttn_stats] computes it from the extracted
    fields. *)
Definition derive_connected (fromisoformat : string -> result datetime)
  (last_up : json) (uplink : Z) (max_age_seconds : Q) (utcnow : Z) : bool :=
  if truthy last_up then
    match age_check fromisoformat last_up uplink max_age_seconds utcnow with
    | Ok c => c
    | Raise _ => uplink >? 0
    end
  else false.

(** The record returned for absent data. *)
Definition zero_record : ttn_stats :=
  {| uplink_count := 0;
     downlink_count := 0;
     last_uplink_received_at := JStr "";
     last_downlink_received_at := JStr "";
     connected := false |}.

(** [n] iterations whose clock reads 0, 1, 2, ... seconds, all meeting the
    same environment, none interrupted. *)
Definition heartbeat (env : remote_env) (n : nat) : list tick :=
  map (fun k => {| tk_time := inject_Z (Z.of_nat k);
                   tk_first := env;
                   tk_second := env;
                   tk_interrupt := false |})
      (seq 0 n).

(** A configuration with the defaults of the module. *)
Definition default_config : config :=
  {| TOPIC_PREFIX := "gateways";
     BASICSTATION_CONTAINER := "basicstation";
     DEBUG := false;
     TTN_CLUSTER := "eu1";
     TTN_GATEWAY_ID := "";
     TTN_API_KEY := "" |}.

(* ------------------------------------------------------------------------- *)
(** ** Settings read from the environment *)

(** [str.lower] on one character: A..Z and the Latin-1 capitals (not the
    multiplication sign). *)
Definition lower_char (c : ascii) : ascii :=
  let n := ord c in
  if ((65 <=? n) && (n <=? 90)
      || (192 <=? n) && (n <=? 222) && negb (n =? 215))%N
  then ascii_of_N (n + 32)
  else c.

(** [s.lower()] *)
Fixpoint lower (s : string) : string :=
  match s with
  | EmptyString => EmptyString
  | String c t => String (lower_char c) (lower t)
  end.

(** [DEBUG = os.getenv("DEBUG", "False").lower() == "true"]; [None] is an
    unset variable. *)
Definition debug_of_env (v : option string) : bool :=
  String.eqb (lower (match v with Some s => s | None => "False" end)) "true".

(** The broker settings [publish_stats] reads before the loop. *)
Record mqtt_settings : Type := {
  MQTT_BROKER : string;
  MQTT_PORT : Z;
  MQTT_USER : string;
  MQTT_PASS : string
}.

(* ------------------------------------------------------------------------- *)
(** ** [publish_stats] as a whole *)

(** What [publish_stats] does from its first line to its last: the calls on
    the MQTT client, its own prints and sleeps, and the iterations of the
    loop.  [Announce] stands for the two lines printed before the loop; the
    assignment of the two callbacks leaves no step. *)
Inductive step : Type :=
| UsernamePwSet (user pass : string)
| Attempting (attempt max_retries : nat)
| Connect (host : string) (port keepalive : Z)
| ConnectFailed (e : exn)
| MaxRetriesReached
| Backoff (seconds : Z)
| LoopStart
| Announce
| Iteration (tr : list effect)
| LoopStop
| Disconnect.

(** Lines 206-219, [for attempt in range(1, max_retries + 1)], from
    [attempt] on with [remaining] rounds left.  [connect k] is what the
    [k]-th call of [client.connect] does.  The flag tells whether the
    function goes on to the loop ([break], or the range used up) or
    returns. *)
Fixpoint connect_attempts (s : mqtt_settings) (connect : nat -> result unit)
  (max_retries remaining attempt : nat) : list step * bool :=
  match remaining with
  | O => ([], true)
  | S k =>
      let call := [Attempting attempt max_retries;
                   Connect (MQTT_BROKER s) (MQTT_PORT s) 60] in
      match connect attempt with
      | Ok _ => (call, true)
      | Raise e =>
          if Nat.eqb attempt max_retries
          then ((call ++ [ConnectFailed e; MaxRetriesReached])%list, false)
          else
            let '(later, go) :=
              connect_attempts s connect max_retries k (S attempt) in
            ((call ++ [ConnectFailed e; Backoff 5] ++ later)%list, go)
      end
  end.

(** How the loop is left within the iterations given, if it is: by
    [break], or by the [KeyboardInterrupt] that leaves [publish_stats]. *)
Fixpoint loop_end (fromisoformat : string -> result datetime)
  (cfg : config) (local_interval ttn_interval : Q) (ticks : list tick)
  (st : sched) : option control :=
  match ticks with
  | [] => None
  | tk :: rest =>
      let '(_, st', c) :=
        loop_body fromisoformat cfg local_interval ttn_interval tk st in
      match c with
      | Continue =>
          loop_end fromisoformat cfg local_interval ttn_interval rest st'
      | Break | Propagate => Some c
      end
  end.

(** Whether the loop is left, either way, within the iterations given. *)
Definition loop_exits (fromisoformat : string -> result datetime)
  (cfg : config) (local_interval ttn_interval : Q) (ticks : list tick)
  (st : sched) : bool :=
  match loop_end fromisoformat cfg local_interval ttn_interval ticks st with
  | Some _ => true
  | None => false
  end.

(** [publish_stats()] from line 198: credentials, connection with retry,
    the loop over the iterations given, and the shutdown (lines 315-316)
    once the loop is left by [break].  A [KeyboardInterrupt] that leaves the
    function does not reach these lines. *)
Definition publish_stats_main (fromisoformat : string -> result datetime)
  (cfg : config) (s : mqtt_settings) (connect : nat -> result unit)
  (ticks : list tick) : list step :=
  let credentials :=
    if str_truthy (MQTT_USER s) && str_truthy (MQTT_PASS s)
    then [UsernamePwSet (MQTT_USER s) (MQTT_PASS s)]
    else [] in
  let '(attempts, go) := connect_attempts s connect 3 3 1 in
  (credentials ++ attempts ++
   if go then
     [LoopStart; Announce]
     ++ map Iteration (fst (publish_stats fromisoformat cfg ticks))
     ++ match loop_end fromisoformat cfg 5 10 ticks fresh with
        | Some Break => [LoopStop; Disconnect]
        | _ => []
        end
   else [])%list.

(* ------------------------------------------------------------------------- *)
(** ** Further notions used to state the properties *)

(** The messages a trace hands to the broker, in order. *)
Fixpoint published (tr : list effect) : list (string * json) :=
  match tr with
  | [] => []
  | Publish topic payload :: rest => (topic, payload) :: published rest
  | _ :: rest => published rest
  end.

(** The seconds slept in a trace, in order. *)
Fixpoint sleeps (tr : list effect) : list Z :=
  match tr with
  | [] => []
  | Sleep n :: rest => n :: sleeps rest
  | _ :: rest => sleeps rest
  end.


(** The [TTN_*] settings are all set. *)
Definition ttn_configured (cfg : config) : bool :=
  str_truthy (TTN_CLUSTER cfg) && str_truthy (TTN_GATEWAY_ID cfg)
  && str_truthy (TTN_API_KEY cfg).

(** The six retained messages of a record, as block 1 sends them. *)
Definition ttn_messages (cfg : config) (stamp : string) (r : ttn_stats)
  : list (string * json) :=
  [(TOPIC_PREFIX cfg ++ "/ttn/uplink_count", JInt (uplink_count r));
   (TOPIC_PREFIX cfg ++ "/ttn/downlink_count", JInt (downlink_count r));
   (TOPIC_PREFIX cfg ++ "/ttn/last_uplink_received_at",
    last_uplink_received_at r);
   (TOPIC_PREFIX cfg ++ "/ttn/last_downlink_received_at",
    last_downlink_received_at r);
   (TOPIC_PREFIX cfg ++ "/ttn/connected", flag (connected r));
   (TOPIC_PREFIX cfg ++ "/ttn/last_update", JStr stamp)].

(** Whether the remote chain is due at second [k] of a run started at
    second 0 with nothing failing: at 10, 20, 30, ... *)
Definition due (k : nat) : nat :=
  if Nat.ltb 0 k && Nat.eqb (k mod 10) 0 then 1%nat else 0%nat.

Definition count_steps (p : step -> bool) (steps : list step) : nat :=
  List.length (filter p steps).

Definition is_connect (x : step) : bool :=
  match x with Connect _ _ _ => true | _ => false end.

Definition is_backoff (x : step) : bool :=
  match x with Backoff _ => true | _ => false end.

Definition is_iteration (x : step) : bool :=
  match x with Iteration _ => true | _ => false end.

(* ========================================================================= *)
(** * Properties *)

(* ------------------------------------------------------------------------- *)
(** ** The TTN status normaliser *)

Section NormaliserFacts.

Variable fromisoformat : string -> result datetime.

(** A non-empty object whose two counts convert: the record returned. *)
Lemma parse_ttn_stats_object (fields : list (string * json))
  (max_age_seconds : Q) (utcnow u d : Z) :
  fields <> [] ->
  py_int (dict_get fields "uplink_count" (JInt 0)) = Ok u ->
  py_int (dict_get fields "downlink_count" (JInt 0)) = Ok d ->
  parse_ttn_stats fromisoformat (JObj fields) max_age_seconds utcnow =
  Ok {| uplink_count := u;
        downlink_count := d;
        last_uplink_received_at :=
          dict_get fields "last_uplink_received_at" (JStr "");
        last_downlink_received_at :=
          dict_get fields "last_downlink_received_at" (JStr "");
        connected :=
          derive_connected fromisoformat
            (dict_get fields "last_uplink_received_at" (JStr ""))
            u max_age_seconds utcnow |}.
Proof.
  intros Hne Hu Hd.
  unfold parse_ttn_stats.
  destruct fields as [|kv rest]; [contradiction|].
  cbn [truthy negb get rbind].
  rewrite Hu. cbn [rbind]. rewrite Hd. cbn [rbind].
  reflexivity.
Qed.

(** Falsy data ([None], [{}], ...) gives the zero record. *)
Lemma parse_ttn_stats_falsy (data : json) (max_age_seconds : Q)
  (utcnow : Z) :
  truthy data = false ->
  parse_ttn_stats fromisoformat data max_age_seconds utcnow = Ok zero_record.
Proof.
  intros H. unfold parse_ttn_stats. rewrite H. reflexivity.
Qed.

(** Whatever the record, the flag is set only next to a positive count. *)
Lemma derive_true_uplink (last_up : json) (uplink : Z) (max_age_seconds : Q)
  (utcnow : Z) :
  derive_connected fromisoformat last_up uplink max_age_seconds utcnow = true ->
  0 < uplink.
Proof.
  unfold derive_connected, age_check.
  destruct (truthy last_up); [|discriminate].
  destruct last_up; cbn [rbind]; try (intros H; apply Z.gtb_lt in H; lia).
  destruct (fromisoformat _) as [t|e]; cbn [rbind];
    [|intros H; apply Z.gtb_lt in H; lia].
  destruct (dt_sub _ t) as [age|e]; cbn [rbind];
    [|intros H; apply Z.gtb_lt in H; lia].
  intros H. apply andb_true_iff in H. destruct H as [_ H].
  apply Z.gtb_lt in H. lia.
Qed.

Lemma parse_ttn_stats_connected (data : json) (max_age_seconds : Q)
  (utcnow : Z) (r : ttn_stats) :
  parse_ttn_stats fromisoformat data max_age_seconds utcnow = Ok r ->
  connected r = true -> 0 < uplink_count r.
Proof.
  unfold parse_ttn_stats.
  destruct (truthy data); cbn [negb].
  2:{ intros H; inversion H; subst; cbn; discriminate. }
  destruct (get data "uplink_count" (JInt 0)) as [v1|]; cbn [rbind];
    [|discriminate].
  destruct (py_int v1) as [u|]; cbn [rbind]; [|discriminate].
  destruct (get data "downlink_count" (JInt 0)) as [v2|]; cbn [rbind];
    [|discriminate].
  destruct (py_int v2) as [d|]; cbn [rbind]; [|discriminate].
  destruct (get data "last_uplink_received_at" (JStr "")) as [lu|];
    cbn [rbind]; [|discriminate].
  destruct (get data "last_downlink_received_at" (JStr "")) as [ld|];
    cbn [rbind]; [|discriminate].
  intros H; inversion H; subst; cbn [connected uplink_count].
  apply derive_true_uplink.
Qed.

(** A key that is absent reads as the default. *)
Lemma dict_get_missing (fields : list (string * json)) (key : string)
  (default : json) :
  (forall v, ~ In (key, v) fields) -> dict_get fields key default = default.
Proof.
  induction fields as [|[k v] rest IH]; intros Hmiss; cbn; [reflexivity|].
  destruct (String.eqb k key) eqn:E.
  - apply String.eqb_eq in E. subst k. exfalso. apply (Hmiss v). now left.
  - apply IH. intros v' Hin. apply (Hmiss v'). now right.
Qed.

(** On an object the first count that does not convert is raised. *)
Lemma parse_ttn_stats_raises (fields : list (string * json))
  (max_age_seconds : Q) (utcnow : Z) (e : exn) :
  fields <> [] ->
  py_int (dict_get fields "uplink_count" (JInt 0)) = Raise e
  \/ (exists u, py_int (dict_get fields "uplink_count" (JInt 0)) = Ok u
               /\ py_int (dict_get fields "downlink_count" (JInt 0))
                  = Raise e) ->
  parse_ttn_stats fromisoformat (JObj fields) max_age_seconds utcnow = Raise e.
Proof.
  intros Hne H. unfold parse_ttn_stats.
  destruct fields as [|kv rest]; [contradiction|].
  cbn [truthy negb get rbind].
  destruct H as [H|[u [Hu Hd]]].
  - rewrite H. reflexivity.
  - rewrite Hu. cbn [rbind]. rewrite Hd. reflexivity.
Qed.

(** C7. Absent data ([None]) is normalised to the fixed zero record
    [{0, 0, "", "", connected: false}], whatever [max_age_seconds] (and
    whatever the clock and the interpreter's timestamp parser). *)
Theorem parse_ttn_stats_absent (max_age_seconds : Q) (utcnow : Z) :
  parse_ttn_stats fromisoformat JNull max_age_seconds utcnow =
  Ok {| uplink_count := 0;
        downlink_count := 0;
        last_uplink_received_at := JStr "";
        last_downlink_received_at := JStr "";
        connected := false |}.
Proof. reflexivity. Qed.

(** C2, as the code has it.  For an object both of whose counts are missing
    or accepted by [int()], the normaliser returns a record (it does not
    raise) that carries [int()] of each field, and 0 for a missing field.  (A
    count [int()] rejects is raised to the caller instead, see
    [parse_ttn_stats_raises].) *)
Theorem parse_ttn_stats_counts (fields : list (string * json))
  (max_age_seconds : Q) (utcnow u d : Z) :
  py_int (dict_get fields "uplink_count" (JInt 0)) = Ok u ->
  py_int (dict_get fields "downlink_count" (JInt 0)) = Ok d ->
  exists r,
    parse_ttn_stats fromisoformat (JObj fields) max_age_seconds utcnow = Ok r
    /\ uplink_count r = u
    /\ downlink_count r = d
    /\ ((forall v, ~ In ("uplink_count", v) fields) -> uplink_count r = 0)
    /\ ((forall v, ~ In ("downlink_count", v) fields) -> downlink_count r = 0).
Proof.
  intros Hu Hd.
  assert (Hmu : (forall v, ~ In ("uplink_count", v) fields) -> u = 0).
  { intros Hm. rewrite (dict_get_missing _ _ _ Hm) in Hu. now inversion Hu. }
  assert (Hmd : (forall v, ~ In ("downlink_count", v) fields) -> d = 0).
  { intros Hm. rewrite (dict_get_missing _ _ _ Hm) in Hd. now inversion Hd. }
  destruct fields as [|kv rest] eqn:Ef.
  - exists zero_record. cbn in Hu, Hd. inversion Hu. inversion Hd.
    repeat split; reflexivity.
  - rewrite <- Ef in *.
    eexists. split.
    + apply parse_ttn_stats_object;
        [rewrite Ef; discriminate|exact Hu|exact Hd].
    + cbn [uplink_count downlink_count]. auto.
Qed.

(** C3. The [connected] flag of a returned record is set only next to a
    strictly positive uplink count.  In particular an object whose
    [uplink_count] converts to 0 is normalised to a record with
    [connected = false], whatever its timestamp, and so is absent data. *)
Theorem connected_needs_uplink (data : json) (max_age_seconds : Q)
  (utcnow : Z) :
  (forall r,
      parse_ttn_stats fromisoformat data max_age_seconds utcnow = Ok r ->
      connected r = true -> 0 < uplink_count r)
  /\ (forall fields d,
         data = JObj fields ->
         py_int (dict_get fields "uplink_count" (JInt 0)) = Ok 0 ->
         py_int (dict_get fields "downlink_count" (JInt 0)) = Ok d ->
         exists r,
           parse_ttn_stats fromisoformat data max_age_seconds utcnow = Ok r
           /\ uplink_count r = 0 /\ connected r = false)
  /\ (truthy data = false ->
      exists r,
        parse_ttn_stats fromisoformat data max_age_seconds utcnow = Ok r
        /\ connected r = false).
Proof.
  split; [|split].
  - intros r. apply parse_ttn_stats_connected.
  - intros fields d -> Hu Hd.
    destruct fields as [|kv rest] eqn:Ef.
    + exists zero_record. repeat split.
    + rewrite <- Ef in *.
      assert (Hne : fields <> []) by (rewrite Ef; discriminate).
      pose proof (parse_ttn_stats_object fields max_age_seconds utcnow 0 d
                    Hne Hu Hd) as Hr.
      eexists. split; [exact Hr|]. split; [reflexivity|].
      cbn [connected].
      match goal with
      | |- ?c = false => destruct c eqn:Ec; [|reflexivity]
      end.
      apply derive_true_uplink in Ec. lia.
  - intros Hf. exists zero_record. split; [|reflexivity].
    now apply parse_ttn_stats_falsy.
Qed.

(** *** Rounding of [total_seconds] *)

Lemma half_even_lower (num den k : Z) :
  0 < den -> k * den <= num -> k <= half_even num den.
Proof.
  intros Hd H. unfold half_even.
  assert (k <= num / den) by (apply Z.div_le_lower_bound; lia).
  destruct (2 * (num mod den) ?= den); [destruct (Z.even _)| |]; lia.
Qed.

Lemma half_even_upper (num den k : Z) :
  0 < den -> num <= k * den -> half_even num den <= k.
Proof.
  intros Hd H. unfold half_even.
  pose proof (Z.div_mod num den ltac:(lia)) as E.
  pose proof (Z.mod_pos_bound num den Hd) as B.
  destruct (Z.compare_spec (2 * (num mod den)) den) as [C|C|C];
    [destruct (Z.even _)| |]; nia.
Qed.

Lemma half_even_mono (n1 n2 den : Z) :
  0 < den -> n1 <= n2 -> half_even n1 den <= half_even n2 den.
Proof.
  intros Hd H. unfold half_even.
  pose proof (Z.div_mod n1 den ltac:(lia)) as E1.
  pose proof (Z.mod_pos_bound n1 den Hd) as B1.
  pose proof (Z.div_mod n2 den ltac:(lia)) as E2.
  pose proof (Z.mod_pos_bound n2 den Hd) as B2.
  assert (Hq : n1 / den <= n2 / den) by (apply Z.div_le_mono; lia).
  destruct (Z.compare_spec (2 * (n1 mod den)) den) as [C1|C1|C1];
    destruct (Z.compare_spec (2 * (n2 mod den)) den) as [C2|C2|C2];
    try destruct (Z.even (n1 / den)) eqn:V1;
    try destruct (Z.even (n2 / den)) eqn:V2;
    try nia.
  all: assert (n1 / den = n2 / den \/ n1 / den + 1 <= n2 / den) as [Q|Q] by lia;
       try nia; try (rewrite Q in V1; congruence).
Qed.

Lemma scaled_quotient_large (n : Z) :
  0 < n -> 2 ^ 52 <= n * 2 ^ 72 / 1000000.
Proof.
  intros Hn. apply Z.div_le_lower_bound; [lia|].
  change (2 ^ 72) with 4722366482869645213696.
  change (2 ^ 52) with 4503599627370496. lia.
Qed.

Lemma double_exponent_spec (n : Z) :
  0 < n ->
  0 <= double_exponent n
  /\ 2 ^ 52 * (1000000 * 2 ^ double_exponent n) <= n * 2 ^ 72
  /\ n * 2 ^ 72 < 2 ^ 53 * (1000000 * 2 ^ double_exponent n).
Proof.
  intros Hn. unfold double_exponent.
  pose proof (scaled_quotient_large n Hn) as Hq.
  set (A := n * 2 ^ 72 / 1000000) in *.
  assert (HA : 0 < A) by (change (2 ^ 52) with 4503599627370496 in Hq; lia).
  pose proof (Z.log2_spec A HA) as [Hlo Hhi].
  assert (Hl : 52 <= Z.log2 A).
  { change 52 with (Z.log2 (2 ^ 52)). apply Z.log2_le_mono. exact Hq. }
  set (e := Z.log2 A - 52).
  assert (He : 0 <= e) by (subst e; lia).
  assert (E1 : 2 ^ Z.log2 A = 2 ^ 52 * 2 ^ e).
  { rewrite <- Z.pow_add_r by lia. f_equal. subst e. lia. }
  assert (E2 : 2 ^ Z.succ (Z.log2 A) = 2 ^ 53 * 2 ^ e).
  { rewrite <- Z.pow_add_r by lia. f_equal. subst e. lia. }
  rewrite E1 in Hlo. rewrite E2 in Hhi.
  pose proof (Z.div_mod (n * 2 ^ 72) 1000000 ltac:(lia)) as Hdm.
  pose proof (Z.mod_pos_bound (n * 2 ^ 72) 1000000 ltac:(lia)) as Hmb.
  fold A in Hdm.
  split; [exact He|]. split; nia.
Qed.

Lemma double_exponent_mono (a b : Z) :
  0 < a -> a <= b -> double_exponent a <= double_exponent b.
Proof.
  intros Ha Hab. unfold double_exponent.
  apply Z.sub_le_mono_r. apply Z.log2_le_mono.
  apply Z.div_le_mono; [lia|]. apply Z.mul_le_mono_nonneg_r; [|exact Hab].
  apply Z.pow_nonneg. lia.
Qed.

Lemma double_of_micros_bounds (n : Z) :
  0 < n ->
  2 ^ 52 * 2 ^ double_exponent n <= double_of_micros n
  /\ double_of_micros n <= 2 ^ 53 * 2 ^ double_exponent n.
Proof.
  intros Hn. destruct (double_exponent_spec n Hn) as [He [Hlo Hhi]].
  unfold double_of_micros.
  assert (Hp : 0 < 2 ^ double_exponent n) by (apply Z.pow_pos_nonneg; lia).
  split.
  - apply Z.mul_le_mono_nonneg_r; [lia|].
    apply half_even_lower; lia.
  - apply Z.mul_le_mono_nonneg_r; [lia|].
    apply half_even_upper; lia.
Qed.

Lemma double_of_micros_mono (a b : Z) :
  0 < a -> a <= b -> double_of_micros a <= double_of_micros b.
Proof.
  intros Ha Hab.
  pose proof (double_exponent_mono a b Ha Hab) as He.
  destruct (double_exponent_spec a Ha) as [Hea _].
  destruct (Z.eq_dec (double_exponent a) (double_exponent b)) as [E|N].
  - unfold double_of_micros. rewrite <- E.
    assert (Hp : 0 < 2 ^ double_exponent a) by (apply Z.pow_pos_nonneg; lia).
    apply Z.mul_le_mono_nonneg_r; [lia|].
    apply half_even_mono; [lia|].
    apply Z.mul_le_mono_nonneg_r; [apply Z.pow_nonneg; lia|exact Hab].
  - destruct (double_of_micros_bounds a Ha) as [_ Hua].
    destruct (double_of_micros_bounds b ltac:(lia)) as [Hlb _].
    assert (Hstep : 2 * 2 ^ double_exponent a <= 2 ^ double_exponent b).
    { rewrite <- Z.pow_succ_r by lia. apply Z.pow_le_mono_r; lia. }
    change (2 ^ 53) with (2 ^ 52 * 2) in Hua.
    assert (H52 : 0 < 2 ^ 52) by reflexivity.
    nia.
Qed.

Lemma double_of_micros_pos (n : Z) : 0 < n -> 0 < double_of_micros n.
Proof.
  intros Hn. destruct (double_of_micros_bounds n Hn) as [Hlo _].
  destruct (double_exponent_spec n Hn) as [He _].
  assert (Hp : 0 < 2 ^ double_exponent n) by (apply Z.pow_pos_nonneg; lia).
  assert (H52 : 0 < 2 ^ 52) by reflexivity. nia.
Qed.

Lemma total_seconds_le (a b : Z) :
  a <= b -> (total_seconds a <= total_seconds b)%Q.
Proof.
  intros Hab.
  destruct a as [|a|a], b as [|b|b]; try lia; unfold total_seconds;
    unfold Qle, Qopp; cbn [Qnum Qden];
    try (pose proof (double_of_micros_pos (Zpos a) eq_refl));
    try (pose proof (double_of_micros_pos (Zpos b) eq_refl)).
  - lia.
  - lia.
  - apply Z.mul_le_mono_nonneg_r; [lia|].
    apply double_of_micros_mono; lia.
  - lia.
  - lia.
  - apply Z.mul_le_mono_nonneg_r; [lia|].
    pose proof (double_of_micros_mono (Zpos b) (Zpos a) eq_refl ltac:(lia)).
    lia.
Qed.


Lemma half_even_exact (k den : Z) : 0 < den -> half_even (k * den) den = k.
Proof.
  intros Hd. unfold half_even.
  rewrite Z.div_mul by lia. rewrite Z.mod_mul by lia.
  destruct (Z.compare_spec (2 * 0) den) as [C|C|C]; [lia|reflexivity|lia].
Qed.

Lemma double_exponent_upper (n b : Z) :
  0 < n -> 0 <= b -> n < 2 ^ b * 1000000 -> double_exponent n <= b + 19.
Proof.
  intros Hn Hb Hlt.
  destruct (double_exponent_spec n Hn) as [He [Hlo _]].
  assert (H : 2 ^ double_exponent n < 2 ^ (b + 20)).
  { rewrite Z.pow_add_r by lia.
    change (2 ^ 20) with 1048576.
    change (2 ^ 52) with 4503599627370496 in Hlo.
    change (2 ^ 72) with (4503599627370496 * 1048576) in Hlo.
    assert (0 < 2 ^ b) by (apply Z.pow_pos_nonneg; lia).
    assert (0 < 2 ^ double_exponent n) by (apply Z.pow_pos_nonneg; lia).
    nia. }
  apply Z.pow_lt_mono_r_iff in H; lia.
Qed.

(** Whole seconds below [2^53] are floats: the division is exact. *)
Lemma double_of_micros_whole (s : Z) :
  0 < s < 2 ^ 53 -> double_of_micros (s * 1000000) = s * 2 ^ 72.
Proof.
  intros [Hs Hlt].
  assert (Hn : 0 < s * 1000000) by lia.
  destruct (double_exponent_spec _ Hn) as [He _].
  pose proof (double_exponent_upper (s * 1000000) 53 Hn ltac:(lia) ltac:(lia))
    as Hu.
  unfold double_of_micros.
  set (e := double_exponent (s * 1000000)) in *.
  assert (Hp : 0 < 2 ^ e) by (apply Z.pow_pos_nonneg; lia).
  assert (E : 2 ^ 72 = 2 ^ (72 - e) * 2 ^ e).
  { rewrite <- Z.pow_add_r by lia. f_equal. lia. }
  replace (s * 1000000 * 2 ^ 72)
    with (s * 2 ^ (72 - e) * (1000000 * 2 ^ e)) by (rewrite E; ring).
  rewrite half_even_exact by lia. rewrite E. ring.
Qed.

Lemma total_seconds_whole (s : Z) :
  0 <= s < 2 ^ 53 -> (total_seconds (s * 1000000) == inject_Z s)%Q.
Proof.
  intros [Hs Hlt].
  destruct (Z.eq_dec s 0) as [->|Hne]; [reflexivity|].
  destruct (s * 1000000) as [|p|p] eqn:E; try lia.
  unfold total_seconds. rewrite <- E. rewrite double_of_micros_whole by lia.
  unfold Qeq, inject_Z. cbn [Qnum Qden].
  change (Z.pos (2 ^ 72)) with (2 ^ 72). lia.
Qed.

(** Below [2^33] seconds (some 272 years) floats are less than a microsecond
    apart: one microsecond past a whole second is a larger float. *)
Lemma double_of_micros_past_whole (s : Z) :
  0 <= s < 2 ^ 33 - 1 -> s * 2 ^ 72 < double_of_micros (s * 1000000 + 1).
Proof.
  intros [Hs Hlt].
  assert (Hn : 0 < s * 1000000 + 1) by lia.
  destruct (double_exponent_spec _ Hn) as [He _].
  pose proof (double_exponent_upper (s * 1000000 + 1) 33 Hn ltac:(lia)
                ltac:(change (2 ^ 33) with 8589934592 in *; lia)) as Hu.
  unfold double_of_micros.
  set (e := double_exponent (s * 1000000 + 1)) in *.
  assert (Hp : 0 < 2 ^ e) by (apply Z.pow_pos_nonneg; lia).
  assert (E : 2 ^ 72 = 2 ^ (72 - e) * 2 ^ e).
  { rewrite <- Z.pow_add_r by lia. f_equal. lia. }
  assert (Hsmall : 1000000 * 2 ^ e <= 2 ^ 72).
  { assert (2 ^ e <= 2 ^ 52) by (apply Z.pow_le_mono_r; lia).
    change (2 ^ 52) with 4503599627370496 in *.
    change (2 ^ 72) with 4722366482869645213696. lia. }
  assert (Hk : s * 2 ^ (72 - e) + 1
               <= half_even ((s * 1000000 + 1) * 2 ^ 72) (1000000 * 2 ^ e)).
  { apply half_even_lower; [lia|].
    replace ((s * 1000000 + 1) * 2 ^ 72)
      with (s * 1000000 * 2 ^ 72 + 2 ^ 72) by ring.
    replace ((s * 2 ^ (72 - e) + 1) * (1000000 * 2 ^ e))
      with (s * 1000000 * (2 ^ (72 - e) * 2 ^ e) + 1000000 * 2 ^ e) by ring.
    rewrite <- E. lia. }
  rewrite E at 1.
  replace (s * (2 ^ (72 - e) * 2 ^ e)) with (s * 2 ^ (72 - e) * 2 ^ e) by ring.
  nia.
Qed.

(** For a whole-second bound below [2^33 - 1] the rounded comparison is the
    exact one. *)
Lemma total_seconds_le_whole (age m : Z) :
  0 <= m < 2 ^ 33 - 1 ->
  Qle_bool (total_seconds age) (inject_Z m) = (age <=? m * 1000000).
Proof.
  intros Hm.
  assert (H53 : 0 <= m < 2 ^ 53).
  { change (2 ^ 33) with 8589934592 in Hm.
    change (2 ^ 53) with 9007199254740992. lia. }
  destruct (Z.leb_spec age (m * 1000000)) as [Hle|Hgt].
  - apply Qle_bool_iff. rewrite <- (total_seconds_whole m H53).
    now apply total_seconds_le.
  - destruct (Qle_bool _ _) eqn:Q; [|reflexivity].
    apply Qle_bool_iff in Q.
    assert (Hstep : (total_seconds (m * 1000000 + 1) <= inject_Z m)%Q).
    { eapply Qle_trans; [apply total_seconds_le|exact Q]. lia. }
    pose proof (double_of_micros_past_whole m Hm) as Hpast.
    destruct (m * 1000000 + 1) as [|p|p] eqn:E; try lia.
    unfold total_seconds, Qle, inject_Z in Hstep. cbn [Qnum Qden] in Hstep.
    change (Z.pos (2 ^ 72)) with (2 ^ 72) in Hstep. lia.
Qed.

(** The age test on an aware timestamp. *)
Lemma age_check_aware (s : string) (uplink : Z) (max_age_seconds : Q)
  (utcnow : Z) (t : datetime) (off : Z) :
  fromisoformat (replace "Z" "+00:00" s) = Ok t ->
  utcoffset t = Some off ->
  age_check fromisoformat (JStr s) uplink max_age_seconds utcnow =
  Ok (Qle_bool (total_seconds (utcnow - (wall_us t - off))) max_age_seconds
      && (uplink >? 0)).
Proof.
  intros Ht Hoff. unfold age_check. rewrite Ht. cbn [rbind].
  unfold dt_sub, now_utc. cbn [utcoffset wall_us]. rewrite Hoff. cbn [rbind].
  replace (utcnow - 0 - (wall_us t - off)) with (utcnow - (wall_us t - off))
    by lia.
  reflexivity.
Qed.

Lemma str_truthy_nonempty (s : string) : s <> "" -> str_truthy s = true.
Proof. destruct s; [contradiction|reflexivity]. Qed.

(** C4. A document with a positive uplink count whose
    [last_uplink_received_at] parses as an aware instant (one with a UTC
    offset) is connected exactly when the age of that instant, in seconds
    and rounded to the nearest float as [total_seconds] does, is at most
    [max_age_seconds].  For a whole-second bound below [2^33 - 1] the
    rounding does not show: connected holds exactly when the age in
    microseconds is at most the bound.  With 600, an age of 601 s gives
    [false], 599 s gives [true], and the boundary age itself counts as
    connected. *)
Theorem connected_iff_recent (fields : list (string * json))
  (max_age_seconds : Q) (utcnow u d : Z) (s : string) (t : datetime)
  (off : Z) :
  py_int (dict_get fields "uplink_count" (JInt 0)) = Ok u ->
  0 < u ->
  py_int (dict_get fields "downlink_count" (JInt 0)) = Ok d ->
  dict_get fields "last_uplink_received_at" (JStr "") = JStr s ->
  s <> "" ->
  fromisoformat (replace "Z" "+00:00" s) = Ok t ->
  utcoffset t = Some off ->
  let age := utcnow - (wall_us t - off) in
  exists r,
    parse_ttn_stats fromisoformat (JObj fields) max_age_seconds utcnow = Ok r
    /\ connected r = Qle_bool (total_seconds age) max_age_seconds
    /\ (forall m, 0 <= m < 2 ^ 33 - 1 -> max_age_seconds == inject_Z m ->
        connected r = (age <=? m * 1000000))
    /\ (max_age_seconds = 600%Q -> age = 601 * 1000000 -> connected r = false)
    /\ (max_age_seconds = 600%Q -> age = 599 * 1000000 -> connected r = true)
    /\ (total_seconds age == max_age_seconds -> connected r = true).
Proof.
  intros Hu Hpos Hd Hs Hne Ht Hoff age.
  assert (Hfields : fields <> []).
  { intros ->. cbn in Hs. inversion Hs. congruence. }
  eexists. split.
  { apply parse_ttn_stats_object; eassumption. }
  cbn [connected]. rewrite Hs. unfold derive_connected.
  cbn [truthy]. rewrite (str_truthy_nonempty s Hne).
  rewrite (age_check_aware s u max_age_seconds utcnow t off Ht Hoff).
  fold age.
  assert (Hgt : (u >? 0) = true) by (apply Z.gtb_lt; lia).
  rewrite Hgt, andb_true_r.
  repeat split.
  - intros m Hm Heq. rewrite Heq. now apply total_seconds_le_whole.
  - intros -> ->. reflexivity.
  - intros -> ->. reflexivity.
  - intros Heq. apply Qle_bool_iff. rewrite Heq. apply Qle_refl.
Qed.

(** C6. With counts that convert: a non-empty [last_uplink_received_at]
    that the timestamp parser rejects gives [connected = (uplink > 0)], so an
    uplink count of 3 gives [true]; an empty one gives [connected = false]
    whatever the counts. *)
Theorem connected_fallback (fields : list (string * json))
  (max_age_seconds : Q) (utcnow u d : Z) (s : string) :
  py_int (dict_get fields "uplink_count" (JInt 0)) = Ok u ->
  py_int (dict_get fields "downlink_count" (JInt 0)) = Ok d ->
  dict_get fields "last_uplink_received_at" (JStr "") = JStr s ->
  exists r,
    parse_ttn_stats fromisoformat (JObj fields) max_age_seconds utcnow = Ok r
    /\ (s <> "" ->
        (exists e, fromisoformat (replace "Z" "+00:00" s) = Raise e) ->
        connected r = (u >? 0) /\ (u = 3 -> connected r = true))
    /\ (s = "" -> connected r = false).
Proof.
  intros Hu Hd Hs.
  destruct fields as [|kv rest] eqn:Ef.
  - exists zero_record. cbn in Hs. inversion Hs; subst s.
    split; [reflexivity|]. split; [intros Hne; now contradiction Hne|].
    reflexivity.
  - rewrite <- Ef in *.
    eexists. split.
    { apply parse_ttn_stats_object; [rewrite Ef; discriminate|eassumption..]. }
    cbn [connected]. rewrite Hs. unfold derive_connected. cbn [truthy].
    split.
    + intros Hne [e He]. rewrite (str_truthy_nonempty s Hne).
      unfold age_check. rewrite He. cbn [rbind].
      split; [reflexivity|]. intros ->. reflexivity.
    + intros ->. reflexivity.
Qed.

End NormaliserFacts.

(** *** The normaliser on concrete documents *)

Lemma parse_ttn_stats_counts_witness :
  exists r,
    parse_ttn_stats fromisoformat_rfc3339
      (JObj [("uplink_count", JStr "12");
             ("last_uplink_received_at", JStr "2025-12-07T10:40:12.345Z")])
      600 63900787811345000 = Ok r
    /\ uplink_count r = 12
    /\ downlink_count r = 0
    /\ ((forall v,
           ~ In ("uplink_count", v)
               [("uplink_count", JStr "12");
                ("last_uplink_received_at", JStr "2025-12-07T10:40:12.345Z")])
        -> uplink_count r = 0)
    /\ ((forall v,
           ~ In ("downlink_count", v)
               [("uplink_count", JStr "12");
                ("last_uplink_received_at", JStr "2025-12-07T10:40:12.345Z")])
        -> downlink_count r = 0).
Proof.
  apply (parse_ttn_stats_counts fromisoformat_rfc3339
           [("uplink_count", JStr "12");
            ("last_uplink_received_at", JStr "2025-12-07T10:40:12.345Z")]
           600 63900787811345000 12 0);
    reflexivity.
Defined.

(** A count that is not a number is raised to the caller, not replaced
    by 0; so is the missing [get] of a document that is not an object. *)
Lemma parse_ttn_stats_non_numeric :
  parse_ttn_stats fromisoformat_rfc3339
    (JObj [("uplink_count", JStr "abc")]) 600 0 = Raise ValueError
  /\ parse_ttn_stats fromisoformat_rfc3339
       (JObj [("uplink_count", JInt 5); ("downlink_count", JNull)]) 600 0
     = Raise TypeError
  /\ parse_ttn_stats fromisoformat_rfc3339 (JArr [JInt 1]) 600 0
     = Raise AttributeError
  /\ ~ (exists r,
          parse_ttn_stats fromisoformat_rfc3339
            (JObj [("uplink_count", JStr "abc")]) 600 0 = Ok r
          /\ uplink_count r = 0).
Proof.
  split; [reflexivity|]. split; [reflexivity|]. split; [reflexivity|].
  intros [r [H _]]. discriminate H.
Qed.

Lemma connected_needs_uplink_witness :
  exists r,
    parse_ttn_stats fromisoformat_rfc3339
      (JObj [("uplink_count", JStr "0");
             ("last_uplink_received_at", JStr "2025-12-07T10:40:12.345Z")])
      600 63900787212345000 = Ok r
    /\ uplink_count r = 0 /\ connected r = false.
Proof.
  apply (proj1 (proj2 (connected_needs_uplink fromisoformat_rfc3339
                         (JObj [("uplink_count", JStr "0");
                                ("last_uplink_received_at",
                                 JStr "2025-12-07T10:40:12.345Z")])
                         600 63900787212345000))
           [("uplink_count", JStr "0");
            ("last_uplink_received_at", JStr "2025-12-07T10:40:12.345Z")] 0);
    reflexivity.
Defined.

Lemma connected_iff_recent_witness :
  exists r,
    parse_ttn_stats fromisoformat_rfc3339
      (JObj [("uplink_count", JStr "12");
             ("downlink_count", JStr "3");
             ("last_uplink_received_at", JStr "2025-12-07T10:40:12.345Z")])
      600 63900787811345000 = Ok r
    /\ connected r = true.
Proof.
  destruct (connected_iff_recent fromisoformat_rfc3339
              [("uplink_count", JStr "12");
               ("downlink_count", JStr "3");
               ("last_uplink_received_at", JStr "2025-12-07T10:40:12.345Z")]
              600 63900787811345000 12 3 "2025-12-07T10:40:12.345Z"
              {| wall_us := 63900787212345000; utcoffset := Some 0 |} 0
              eq_refl eq_refl eq_refl eq_refl
              ltac:(discriminate) eq_refl eq_refl)
    as [r [Hr [_ [_ [_ [H599 _]]]]]].
  exists r. split; [exact Hr|]. apply H599; reflexivity.
Defined.

(** The comparison is made on floats and only on aware timestamps.  On
    2001-01-01T00:00:00.000001Z the instant 0001-01-01T00:00:00Z is
    63113904000.000001 s old; the nearest float is 63113904000.0, so under
    a bound of 63113904000 s the document is connected although its age
    exceeds the bound.  And a timestamp without UTC offset, however old, is
    not compared at all: the subtraction raises [TypeError] and the document
    is connected because its uplink count is positive. *)
Lemma connected_beyond_max_age :
  fromisoformat_rfc3339 (replace "Z" "+00:00" "0001-01-01T00:00:00Z")
  = Ok {| wall_us := 86400000000; utcoffset := Some 0 |}
  /\ 63113904000 * 1000000 < 63113990400000001 - (86400000000 - 0)
  /\ (exists r,
        parse_ttn_stats fromisoformat_rfc3339
          (JObj [("uplink_count", JStr "12");
                 ("last_uplink_received_at", JStr "0001-01-01T00:00:00Z")])
          63113904000 63113990400000001 = Ok r
        /\ connected r = true)
  /\ fromisoformat_rfc3339 (replace "Z" "+00:00" "2001-01-01T00:00:00")
     = Ok {| wall_us := 63113990400000000; utcoffset := None |}
  /\ (exists r,
        parse_ttn_stats fromisoformat_rfc3339
          (JObj [("uplink_count", JStr "12");
                 ("last_uplink_received_at", JStr "2001-01-01T00:00:00")])
          600 63900787811345000 = Ok r
        /\ connected r = true).
Proof.
  split; [reflexivity|]. split; [reflexivity|].
  split; [eexists; split; reflexivity|].
  split; [reflexivity|].
  eexists; split; reflexivity.
Qed.

Lemma connected_fallback_witness :
  exists r,
    parse_ttn_stats fromisoformat_rfc3339
      (JObj [("uplink_count", JInt 3);
             ("last_uplink_received_at", JStr "not-a-date")])
      600 63900787811345000 = Ok r
    /\ connected r = true.
Proof.
  destruct (connected_fallback fromisoformat_rfc3339
              [("uplink_count", JInt 3);
               ("last_uplink_received_at", JStr "not-a-date")]
              600 63900787811345000 3 0 "not-a-date"
              eq_refl eq_refl eq_refl)
    as [r [Hr [Hbad _]]].
  exists r. split; [exact Hr|].
  apply Hbad; [discriminate|exists ValueError; reflexivity|reflexivity].
Defined.

(* ------------------------------------------------------------------------- *)
(** ** The trace monad *)

Lemma value_bind {A B : Type} (m : M A) (k : A -> M B) :
  value (bind m k) =
  match value m with
  | Ok a => value (k a)
  | Raise e => Raise e
  end.
Proof.
  destruct m as [tr [a|e]]; cbn; [|reflexivity].
  destruct (k a); reflexivity.
Qed.

Lemma trace_bind {A B : Type} (m : M A) (k : A -> M B) :
  trace (bind m k) =
  (trace m ++ match value m with
              | Ok a => trace (k a)
              | Raise _ => []
              end)%list.
Proof.
  destruct m as [tr [a|e]]; cbn; [|now rewrite app_nil_r].
  destruct (k a); reflexivity.
Qed.

Lemma value_when (b : bool) (m : M unit) :
  value m = Ok tt -> value (when b m) = Ok tt.
Proof. destruct b; [trivial|reflexivity]. Qed.

(* ------------------------------------------------------------------------- *)
(** ** The log parser *)

Lemma lstrip_blank (s : text) : blank (lstrip s) = blank s.
Proof.
  induction s as [|c t IH]; [reflexivity|].
  cbn [lstrip]. destruct (isspace c) eqn:E.
  - rewrite IH. cbn [blank]. now rewrite E.
  - reflexivity.
Qed.

Lemma rstrip_empty_blank (s : text) : rstrip s = [] -> blank s = true.
Proof.
  induction s as [|c t IH]; [reflexivity|].
  cbn [rstrip blank].
  destruct (rstrip t) eqn:Et.
  - destruct (isspace c); [intros _; now rewrite IH|discriminate].
  - discriminate.
Qed.

(** [not line.strip()] holds of the blank lines only. *)
Lemma strip_truthy (s : text) :
  blank s = false -> text_truthy (strip s) = true.
Proof.
  intros Hb. unfold strip.
  destruct (rstrip (lstrip s)) eqn:E; [|reflexivity].
  apply rstrip_empty_blank in E. rewrite lstrip_blank in E. congruence.
Qed.

Lemma starts_with_head (c : N) (n s : text) :
  starts_with (c :: n) s = true -> exists t, s = c :: t.
Proof.
  destruct s as [|a t]; cbn [starts_with]; [discriminate|].
  intros H. apply andb_true_iff in H. destruct H as [H _].
  apply N.eqb_eq in H. subst a. eauto.
Qed.

(** A line that holds a marker starting with a visible character is not
    blank. *)
Lemma contains_not_blank (c : N) (n s : text) :
  isspace c = false -> text_contains (c :: n) s = true -> blank s = false.
Proof.
  intros Hc. induction s as [|a t IH]; intros H.
  - cbn in H. discriminate.
  - cbn [text_contains] in H. apply orb_true_iff in H. destruct H as [H|H].
    + apply starts_with_head in H. destruct H as [t' Ht]. inversion Ht; subst.
      cbn [blank]. now rewrite Hc.
    + cbn [blank]. rewrite (IH H). apply andb_false_r.
Qed.

Lemma is_rx_not_blank (line : text) :
  is_rx line = true -> text_truthy (strip line) = true.
Proof.
  unfold is_rx. intros H. apply andb_true_iff in H. destruct H as [H _].
  apply strip_truthy. eapply contains_not_blank; [|exact H]. reflexivity.
Qed.

Lemma is_tx_not_blank (line : text) :
  is_tx line = true -> text_truthy (strip line) = true.
Proof.
  unfold is_tx. intros H. apply andb_true_iff in H. destruct H as [H _].
  apply strip_truthy. eapply contains_not_blank; [|exact H]. reflexivity.
Qed.

Lemma count_cons (p : text -> bool) (line : text) (rest : list text) :
  count p (line :: rest) = (if p line then 1 else 0) + count p rest.
Proof.
  unfold count. cbn [filter]. destruct (p line); cbn [List.length]; lia.
Qed.

Lemma count_app (p : text -> bool) (l1 l2 : list text) :
  count p (l1 ++ l2) = count p l1 + count p l2.
Proof.
  unfold count. rewrite filter_app, length_app. lia.
Qed.

(** One step of the [for] loop: the counters after [line]. *)
Lemma parse_log_lines_step (debug : bool) (line : text)
  (rest : list text) (rx_count tx_count : Z) :
  value (parse_log_lines_from debug (line :: rest) rx_count tx_count) =
  value (parse_log_lines_from debug rest
           (rx_count + if is_rx line then 1 else 0)
           (tx_count + if is_tx line then 1 else 0)).
Proof.
  cbn [parse_log_lines_from].
  destruct (text_truthy (strip line)) eqn:Es; cbn [negb].
  - rewrite value_bind.
    destruct (is_rx line), (is_tx line), debug; cbn;
      rewrite ?Z.add_0_r;
      match goal with
      | |- context [parse_log_lines_from ?d ?r ?a ?b] =>
          destruct (parse_log_lines_from d r a b); reflexivity
      end.
  - assert (Hrx : is_rx line = false).
    { destruct (is_rx line) eqn:E; [|reflexivity].
      apply is_rx_not_blank in E. congruence. }
    assert (Htx : is_tx line = false).
    { destruct (is_tx line) eqn:E; [|reflexivity].
      apply is_tx_not_blank in E. congruence. }
    rewrite Hrx, Htx, !Z.add_0_r. reflexivity.
Qed.

(** [parse_log_lines] never raises and counts the marked lines of the whole
    list. *)
Lemma parse_log_lines_from_value (debug : bool) (lines : list text) :
  forall rx_count tx_count,
    value (parse_log_lines_from debug lines rx_count tx_count) =
    Ok {| rx := rx_count + count is_rx lines;
          tx := tx_count + count is_tx lines |}.
Proof.
  induction lines as [|line rest IH]; intros rx_count tx_count.
  - cbn. now rewrite !Z.add_0_r.
  - rewrite parse_log_lines_step, IH, !count_cons.
    f_equal. f_equal; lia.
Qed.

Lemma parse_log_lines_value (debug : bool) (lines : list text) :
  value (parse_log_lines debug lines) =
  Ok {| rx := count is_rx lines; tx := count is_tx lines |}.
Proof.
  unfold parse_log_lines. now rewrite parse_log_lines_from_value.
Qed.

(** C10. The two classifications are independent tests: a line that holds
    "[S2E:" together with " RX " and " TX " adds one to both counters,
    wherever it stands in the input. *)
Theorem rx_and_tx_both_counted (debug : bool) (before after : list text)
  (line : text) :
  text_contains (text_of_string "[S2E:") line = true ->
  text_contains (text_of_string " RX ") line = true ->
  text_contains (text_of_string " TX ") line = true ->
  exists c c',
    value (parse_log_lines debug (before ++ line :: after)) = Ok c
    /\ value (parse_log_lines debug (before ++ after)) = Ok c'
    /\ rx c = rx c' + 1
    /\ tx c = tx c' + 1
    /\ value (parse_log_lines debug [line]) = Ok {| rx := 1; tx := 1 |}.
Proof.
  intros Hs Hr Ht.
  assert (Hrx : is_rx line = true) by (unfold is_rx; now rewrite Hs, Hr).
  assert (Htx : is_tx line = true) by (unfold is_tx; now rewrite Hs, Ht).
  do 2 eexists. rewrite !parse_log_lines_value.
  split; [reflexivity|]. split; [reflexivity|].
  cbn [rx tx]. rewrite !count_app, !count_cons, Hrx, Htx.
  repeat split; try lia.
Qed.

Lemma rx_and_tx_both_counted_witness :
  exists c c',
    value (parse_log_lines false
             ([text_of_string "boot"]
              ++ text_of_string
                   "12:00:01 [S2E:VERB] RX 868.1MHz then TX 869.5MHz"
              :: [text_of_string "idle"])) = Ok c
    /\ value (parse_log_lines false
                ([text_of_string "boot"] ++ [text_of_string "idle"])) = Ok c'
    /\ rx c = rx c' + 1
    /\ tx c = tx c' + 1
    /\ value (parse_log_lines false
                [text_of_string
                   "12:00:01 [S2E:VERB] RX 868.1MHz then TX 869.5MHz"])
       = Ok {| rx := 1; tx := 1 |}.
Proof.
  apply (rx_and_tx_both_counted false [text_of_string "boot"]
           [text_of_string "idle"]
           (text_of_string
              "12:00:01 [S2E:VERB] RX 868.1MHz then TX 869.5MHz"));
    reflexivity.
Defined.

(* ------------------------------------------------------------------------- *)
(** ** The log snapshot fetcher *)

Lemma value_try_except {A : Type} (body : M A) (handler : exn -> M A) :
  value (try_except body handler) =
  match value body with
  | Ok a => Ok a
  | Raise e => value (handler e)
  end.
Proof.
  destruct body as [tr [a|e]]; cbn; [reflexivity|].
  destruct (handler e); reflexivity.
Qed.

Lemma get_docker_logs_value (cfg : config) (docker : docker_api)
  (container_name : string) (tail_lines : Z) :
  value (get_docker_logs cfg docker container_name tail_lines) =
  Ok match docker container_name tail_lines with
     | Ok raw => splitlines raw
     | Raise _ => []
     end.
Proof.
  unfold get_docker_logs.
  destruct (docker container_name tail_lines) as [raw|e];
    destruct (DEBUG cfg); reflexivity.
Qed.

(** A line without inner boundaries, ended by LF, comes back as one line. *)
Lemma splitlines_from_line (l : text) :
  has_linebreak l = false ->
  forall cur rest,
    splitlines_from cur (l ++ LF :: rest)%list =
    (cur ++ l)%list :: splitlines_from [] rest.
Proof.
  induction l as [|a l' IH]; intros Hl cur rest.
  - cbn [app]. rewrite app_nil_r.
    destruct rest; reflexivity.
  - cbn [has_linebreak] in Hl. apply orb_false_iff in Hl.
    destruct Hl as [Ha Hl'].
    cbn [app splitlines_from]. rewrite Ha.
    rewrite (IH Hl'). now rewrite <- app_assoc.
Qed.

Lemma splitlines_join_lines (entries : list text) :
  Forall (fun l => has_linebreak l = false) entries ->
  splitlines (join_lines entries) = entries.
Proof.
  unfold splitlines.
  induction 1 as [|l rest Hl _ IH]; [reflexivity|].
  cbn [join_lines]. rewrite (splitlines_from_line l Hl). cbn [app].
  now rewrite IH.
Qed.

(** C8, as the code has it.  Whatever the daemon answers, [get_docker_logs]
    returns a list and does not raise; a failure is reported and gives the
    empty list; a reply is returned as its [splitlines()].  The result has at
    most [tail_lines] lines when the reply is made of at most [tail_lines]
    LF-ended lines none of which holds another line boundary; the line
    boundaries are LF, VT, FF, CR, FS, GS, RS, NEL (U+0085), LS (U+2028) and
    PS (U+2029). *)
Theorem get_docker_logs_total (cfg : config) (docker : docker_api)
  (container_name : string) (tail_lines : Z) :
  (exists lines,
      value (get_docker_logs cfg docker container_name tail_lines) = Ok lines)
  /\ (forall e,
         docker container_name tail_lines = Raise e ->
         get_docker_logs cfg docker container_name tail_lines =
         ([Print (ErrDockerLogs e)], Ok []))
  /\ (forall raw,
         docker container_name tail_lines = Ok raw ->
         value (get_docker_logs cfg docker container_name tail_lines) =
         Ok (splitlines raw))
  /\ (forall entries,
         docker container_name tail_lines = Ok (join_lines entries) ->
         Forall (fun l => has_linebreak l = false) entries ->
         Z.of_nat (List.length entries) <= tail_lines ->
         exists lines,
           value (get_docker_logs cfg docker container_name tail_lines) =
           Ok lines
           /\ lines = entries
           /\ Z.of_nat (List.length lines) <= tail_lines)
  /\ (forall c,
         is_linebreak c = true <->
         In c [10; 11; 12; 13; 28; 29; 30; 133; 8232; 8233]%N).
Proof.
  split; [|split; [|split; [|split]]].
  - eexists. apply get_docker_logs_value.
  - intros e He. unfold get_docker_logs. rewrite He. reflexivity.
  - intros raw Hraw. rewrite get_docker_logs_value, Hraw. reflexivity.
  - intros entries Hraw Hclean Hlen.
    exists entries. rewrite get_docker_logs_value, Hraw.
    rewrite (splitlines_join_lines entries Hclean). auto.
  - intros c. unfold is_linebreak. cbn [In].
    rewrite !orb_true_iff, !andb_true_iff, !N.leb_le, !N.eqb_eq. lia.
Qed.

Lemma get_docker_logs_total_witness :
  exists lines,
    value (get_docker_logs default_config
             (last_n_lines
                (fun _ => Some (map text_of_string
                                  ["old"; "[S2E:VERB] RX 1"; "idle"])))
             "basicstation" 2) = Ok lines
    /\ lines = map text_of_string ["[S2E:VERB] RX 1"; "idle"]
    /\ Z.of_nat (List.length lines) <= 2.
Proof.
  apply (proj1 (proj2 (proj2 (proj2
           (get_docker_logs_total default_config
              (last_n_lines
                 (fun _ => Some (map text_of_string
                                   ["old"; "[S2E:VERB] RX 1"; "idle"])))
              "basicstation" 2))))
           (map text_of_string ["[S2E:VERB] RX 1"; "idle"])).
  - reflexivity.
  - repeat constructor.
  - cbn. lia.
Defined.

(** One written line with a carriage return inside comes back as two lines:
    the result is longer than the [tail_lines] asked for.  So does a line
    with the line separator U+2028 inside, "a", U+2028, "b". *)
Lemma get_docker_logs_exceeds_tail :
  (exists lines,
      value (get_docker_logs default_config
               (last_n_lines
                  (fun _ => Some [(text_of_string "50%" ++ CR
                                   :: text_of_string "100%")%list]))
               "basicstation" 1) = Ok lines
      /\ lines = map text_of_string ["50%"; "100%"]
      /\ ~ (Z.of_nat (List.length lines) <= 1))
  /\ (exists lines,
        value (get_docker_logs default_config
                 (last_n_lines (fun _ => Some [[97; 8232; 98]%N]))
                 "basicstation" 1) = Ok lines
        /\ lines = [[97]; [98]]%N
        /\ ~ (Z.of_nat (List.length lines) <= 1)).
Proof.
  split.
  - exists (map text_of_string ["50%"; "100%"]).
    split; [reflexivity|]. split; [reflexivity|]. cbn. lia.
  - exists [[97]; [98]]%N.
    split; [reflexivity|]. split; [reflexivity|]. cbn. lia.
Qed.

(* ------------------------------------------------------------------------- *)
(** ** The local stats extractor *)

Lemma recent_skipn (lines : list text) :
  recent lines = skipn (List.length lines - 50) lines.
Proof. destruct lines; reflexivity. Qed.

Lemma gateway_stats_of_lines_value (debug : bool) (stamp : string)
  (lines : list text) :
  value (gateway_stats_of_lines debug stamp lines) =
  Ok {| rx_total := count is_rx lines;
        tx_total := count is_tx lines;
        local_connected := existsb is_rx (recent lines);
        timestamp := stamp |}.
Proof.
  unfold gateway_stats_of_lines.
  rewrite value_bind, parse_log_lines_value.
  destruct debug; reflexivity.
Qed.

Lemma get_gateway_stats_value (cfg : config) (docker : docker_api)
  (stamp container_name : string) (lines : list text) :
  value (get_docker_logs cfg docker container_name 100) = Ok lines ->
  value (get_gateway_stats cfg docker stamp container_name) =
  Ok {| rx_total := count is_rx lines;
        tx_total := count is_tx lines;
        local_connected := existsb is_rx (recent lines);
        timestamp := stamp |}.
Proof.
  intros Hlines. unfold get_gateway_stats.
  rewrite value_bind. cbn [emit value snd].
  rewrite value_try_except, value_bind, Hlines.
  now rewrite gateway_stats_of_lines_value.
Qed.

Lemma count_all (p : text -> bool) (lines : list text) :
  Forall (fun l => p l = true) lines ->
  count p lines = Z.of_nat (List.length lines).
Proof.
  induction 1 as [|l rest Hl _ IH]; [reflexivity|].
  rewrite count_cons, Hl, IH. cbn [List.length]. lia.
Qed.

Lemma count_none (p : text -> bool) (lines : list text) :
  Forall (fun l => p l = false) lines -> count p lines = 0.
Proof.
  induction 1 as [|l rest Hl _ IH]; [reflexivity|].
  rewrite count_cons, Hl, IH. reflexivity.
Qed.

Lemma existsb_none (p : text -> bool) (lines : list text) :
  Forall (fun l => p l = false) lines -> existsb p lines = false.
Proof.
  induction 1 as [|l rest Hl _ IH]; [reflexivity|].
  cbn [existsb]. now rewrite Hl, IH.
Qed.

Lemma Forall_skipn (P : text -> Prop) (n : nat) (lines : list text) :
  Forall P lines -> Forall P (skipn n lines).
Proof.
  intros H. rewrite <- (firstn_skipn n lines) in H.
  apply Forall_app in H. tauto.
Qed.

(** C5. The counts of [get_gateway_stats] range over all fetched lines,
    its [connected] flag over the last 50 only (all of them when there are
    at most 50).  So 60 lines whose uplink lines are the first five give
    [rx_total = 5] and [connected = false], and no lines give 0, 0 and
    [false]. *)
Theorem local_stats_windows (cfg : config) (docker : docker_api)
  (stamp container_name : string) (lines : list text) :
  value (get_docker_logs cfg docker container_name 100) = Ok lines ->
  exists s,
    value (get_gateway_stats cfg docker stamp container_name) = Ok s
    /\ rx_total s = count is_rx lines
    /\ tx_total s = count is_tx lines
    /\ local_connected s =
       existsb is_rx (skipn (List.length lines - 50) lines)
    /\ ((List.length lines <= 50)%nat ->
        local_connected s = existsb is_rx lines)
    /\ (forall front back,
           lines = (front ++ back)%list ->
           List.length front = 5%nat ->
           List.length back = 55%nat ->
           Forall (fun l => is_rx l = true) front ->
           Forall (fun l => is_rx l = false) back ->
           rx_total s = 5 /\ local_connected s = false)
    /\ (lines = [] ->
        rx_total s = 0 /\ tx_total s = 0 /\ local_connected s = false).
Proof.
  intros Hlines. eexists. split.
  { apply get_gateway_stats_value. exact Hlines. }
  cbn [rx_total tx_total local_connected]. rewrite recent_skipn.
  split; [reflexivity|]. split; [reflexivity|]. split; [reflexivity|].
  split.
  { intros Hlen.
    replace (List.length lines - 50)%nat with 0%nat by lia. reflexivity. }
  split.
  { intros front back -> Hfront Hback Hrx Hnone. split.
    - rewrite count_app, (count_all _ _ Hrx), (count_none _ _ Hnone), Hfront.
      reflexivity.
    - rewrite length_app, Hfront, Hback.
      change (5 + 55 - 50)%nat with 10%nat.
      rewrite skipn_app, Hfront.
      rewrite (skipn_all2 front) by lia.
      cbn [app]. apply existsb_none. now apply Forall_skipn. }
  intros ->. repeat split.
Qed.

Lemma local_stats_windows_witness :
  exists s,
    value (get_gateway_stats default_config
             (fun _ _ =>
                Ok (join_lines
                      (repeat (text_of_string "[S2E:VERB] RX 868.1MHz") 5
                       ++ repeat (text_of_string "[SYN:INFO] time sync") 55)))
             "2025-12-07T10:40:12" "basicstation") = Ok s
    /\ rx_total s = 5 /\ local_connected s = false.
Proof.
  destruct (local_stats_windows default_config
              (fun _ _ =>
                 Ok (join_lines
                       (repeat (text_of_string "[S2E:VERB] RX 868.1MHz") 5
                        ++ repeat (text_of_string "[SYN:INFO] time sync")
                             55)))
              "2025-12-07T10:40:12" "basicstation"
              (repeat (text_of_string "[S2E:VERB] RX 868.1MHz") 5
               ++ repeat (text_of_string "[SYN:INFO] time sync") 55)%list
              eq_refl)
    as [s [Hs [_ [_ [_ [_ [H60 _]]]]]]].
  exists s. split; [exact Hs|].
  apply (H60 (repeat (text_of_string "[S2E:VERB] RX 868.1MHz") 5)
             (repeat (text_of_string "[SYN:INFO] time sync") 55)).
  - reflexivity.
  - reflexivity.
  - reflexivity.
  - repeat constructor.
  - repeat constructor.
Defined.

(* ------------------------------------------------------------------------- *)
(** ** The scheduler loop *)

Lemma fired_app (f : callee) (tr1 tr2 : list effect) :
  fired f (tr1 ++ tr2) = (fired f tr1 + fired f tr2)%nat.
Proof. unfold fired. now rewrite filter_app, length_app. Qed.

Lemma fired_bind {A B : Type} (f : callee) (m : M A) (k : A -> M B) :
  fired f (trace (bind m k)) =
  (fired f (trace m)
   + match value m with
     | Ok a => fired f (trace (k a))
     | Raise _ => 0
     end)%nat.
Proof.
  rewrite trace_bind, fired_app. destruct (value m); reflexivity.
Qed.

Lemma fired_bind_quiet {A B : Type} (f : callee) (m : M A) (k : A -> M B) :
  fired f (trace m) = 0%nat ->
  (forall a, fired f (trace (k a)) = 0%nat) ->
  fired f (trace (bind m k)) = 0%nat.
Proof.
  intros Hm Hk. rewrite fired_bind, Hm.
  destruct (value m); [apply Hk|reflexivity].
Qed.

Lemma fired_publish (f : callee) (client : mqtt_client) (topic : string)
  (payload : json) :
  fired f (trace (publish client topic payload)) = 0%nat.
Proof. unfold publish. destruct (client topic payload); reflexivity. Qed.

(** Steps through a chain of binds none of whose links enters a function. *)
Ltac quiet :=
  repeat first
    [ apply fired_publish
    | reflexivity
    | apply fired_bind_quiet; [|intros] ].

(** [fetch_ttn_stats] never raises and is entered once per call. *)
Lemma fetch_ttn_stats_fired (cfg : config) (http : http_reply) :
  (exists data, value (fetch_ttn_stats cfg http) = Ok data)
  /\ fired Fetch_ttn_stats (trace (fetch_ttn_stats cfg http)) = 1%nat
  /\ fired Get_gateway_stats (trace (fetch_ttn_stats cfg http)) = 0%nat.
Proof.
  unfold fetch_ttn_stats.
  destruct (str_truthy (TTN_CLUSTER cfg) && str_truthy (TTN_GATEWAY_ID cfg)
            && str_truthy (TTN_API_KEY cfg));
    destruct (DEBUG cfg); destruct http as [data|e]; cbn; eauto.
Qed.

Section LoopFacts.

Variable fromisoformat : string -> result datetime.
Variable cfg : config.

(** What a TTN block leaves in the trace, by its guard. *)
Lemma ttn_block_1_fired (env : remote_env) (ttn_interval now last : Q) :
  fired Fetch_ttn_stats
    (trace (ttn_block_1 fromisoformat cfg env ttn_interval now last)) =
  (if Qle_bool ttn_interval (now - last) then 1 else 0)%nat
  /\ fired Get_gateway_stats
       (trace (ttn_block_1 fromisoformat cfg env ttn_interval now last)) =
     0%nat.
Proof.
  unfold ttn_block_1.
  destruct (Qle_bool ttn_interval (now - last)); [|split; reflexivity].
  destruct (fetch_ttn_stats_fired cfg (env_http env)) as [[data Hv] [H1 H0]].
  split; rewrite fired_bind, Hv.
  - rewrite H1. apply f_equal. quiet.
  - rewrite H0. quiet.
Qed.

(** Block 1 returns the clock reading when it ran, the old value when it did
    not. *)
Lemma ttn_block_1_value (env : remote_env) (ttn_interval now last last1 : Q) :
  value (ttn_block_1 fromisoformat cfg env ttn_interval now last) = Ok last1 ->
  last1 = (if Qle_bool ttn_interval (now - last) then now else last).
Proof.
  unfold ttn_block_1.
  destruct (Qle_bool ttn_interval (now - last));
    [|cbn; intros H; now inversion H].
  repeat (rewrite value_bind;
          match goal with
          | |- context [match value ?m with _ => _ end] =>
              destruct (value m); [|discriminate]
          end).
  cbn. intros H; now inversion H.
Qed.

Lemma guard_just_fired (ttn_interval now : Q) :
  (0 < ttn_interval)%Q -> Qle_bool ttn_interval (now - now) = false.
Proof.
  intros Hpos. destruct (Qle_bool ttn_interval (now - now)) eqn:E;
    [|reflexivity].
  apply Qle_bool_iff in E. exfalso. lra.
Qed.

(** After block 1 the guard of block 2 is false. *)
Lemma guard_after_block_1 (env : remote_env) (ttn_interval now last last1 : Q) :
  (0 < ttn_interval)%Q ->
  value (ttn_block_1 fromisoformat cfg env ttn_interval now last) = Ok last1 ->
  Qle_bool ttn_interval (now - last1) = false.
Proof.
  intros Hpos Hv. apply ttn_block_1_value in Hv. subst last1.
  destruct (Qle_bool ttn_interval (now - last)) eqn:G;
    [now apply guard_just_fired|exact G].
Qed.

Lemma ttn_block_2_skipped (env : remote_env) (ttn_interval now last : Q) :
  Qle_bool ttn_interval (now - last) = false ->
  ttn_block_2 fromisoformat cfg env ttn_interval now last = ([], Ok last).
Proof. intros G. unfold ttn_block_2. now rewrite G. Qed.

Lemma ttn_block_2_fired (env : remote_env) (ttn_interval now last : Q) :
  fired Get_gateway_stats
    (trace (ttn_block_2 fromisoformat cfg env ttn_interval now last)) = 0%nat.
Proof.
  unfold ttn_block_2.
  destruct (Qle_bool ttn_interval (now - last)); [|reflexivity].
  destruct (fetch_ttn_stats_fired cfg (env_http env)) as [[data Hv] [_ H0]].
  rewrite fired_bind, Hv, H0. quiet.
Qed.

(** What an iteration adds to the trace of its [try] body enters no
    chain. *)
Lemma loop_body_fired (f : callee) (local_interval ttn_interval : Q)
  (tk : tick) (st : sched) :
  fired f
    (fst (fst (loop_body fromisoformat cfg local_interval ttn_interval tk st)))
  = fired f (fst (fst (loop_try fromisoformat cfg ttn_interval tk st))).
Proof.
  unfold loop_body.
  destruct (loop_try fromisoformat cfg ttn_interval tk st)
    as [[tr st'] [e|]];
    destruct (tk_interrupt tk); cbn [fst]; rewrite fired_app;
    destruct f; cbn; lia.
Qed.

(** The local chain is not part of an iteration. *)
Lemma loop_body_no_local (local_interval ttn_interval : Q) (tk : tick)
  (st : sched) :
  fired Get_gateway_stats
    (fst (fst (loop_body fromisoformat cfg local_interval ttn_interval tk st)))
  = 0%nat.
Proof.
  rewrite loop_body_fired. unfold loop_try.
  pose proof (proj2 (ttn_block_1_fired (tk_first tk) ttn_interval
                       (tk_time tk) (last_ttn st))) as H1.
  destruct (ttn_block_1 fromisoformat cfg (tk_first tk) ttn_interval
              (tk_time tk) (last_ttn st)) as [tr1 [last1|e]];
    cbn [trace fst] in H1.
  - pose proof (ttn_block_2_fired (tk_second tk) ttn_interval (tk_time tk)
                  (last_ttn (set_last_ttn st last1))) as H2.
    destruct (ttn_block_2 fromisoformat cfg (tk_second tk) ttn_interval
                (tk_time tk) (last_ttn (set_last_ttn st last1)))
      as [tr2 [last2|e]]; cbn [trace fst] in H2;
      cbn [fst]; rewrite fired_app, H1, H2; reflexivity.
  - exact H1.
Qed.

(** With a positive interval an iteration enters the remote chain once when
    the guard holds, and not at all otherwise. *)
Lemma loop_body_remote (local_interval ttn_interval : Q) (tk : tick)
  (st : sched) :
  (0 < ttn_interval)%Q ->
  fired Fetch_ttn_stats
    (fst (fst (loop_body fromisoformat cfg local_interval ttn_interval tk st)))
  = (if Qle_bool ttn_interval (tk_time tk - last_ttn st) then 1 else 0)%nat.
Proof.
  intros Hpos. rewrite loop_body_fired. unfold loop_try.
  pose proof (proj1 (ttn_block_1_fired (tk_first tk) ttn_interval
                       (tk_time tk) (last_ttn st))) as H1.
  pose proof (guard_after_block_1 (tk_first tk) ttn_interval (tk_time tk)
                (last_ttn st)) as G.
  destruct (ttn_block_1 fromisoformat cfg (tk_first tk) ttn_interval
              (tk_time tk) (last_ttn st)) as [tr1 [last1|e]];
    cbn [trace value fst snd] in H1, G.
  - cbn [set_last_ttn last_ttn].
    rewrite (ttn_block_2_skipped _ _ _ _ (G last1 Hpos eq_refl)).
    cbn [fst]. rewrite app_nil_r. exact H1.
  - exact H1.
Qed.

End LoopFacts.

(** C9. With a positive remote interval, whenever block 1 of an iteration
    ends normally the duplicated block 2 finds its guard false and does
    nothing (no effect, [last_ttn] unchanged); an iteration therefore enters
    the remote chain at most once, and only when the guard of block 1
    holds. *)
Theorem second_block_never_runs
  (fromisoformat : string -> result datetime) (cfg : config)
  (local_interval ttn_interval : Q) (tk : tick) (st : sched) :
  (0 < ttn_interval)%Q ->
  (forall last1,
      value (ttn_block_1 fromisoformat cfg (tk_first tk) ttn_interval
               (tk_time tk) (last_ttn st)) = Ok last1 ->
      ttn_block_2 fromisoformat cfg (tk_second tk) ttn_interval
        (tk_time tk) last1 = ([], Ok last1))
  /\ (fired Fetch_ttn_stats
        (fst (fst (loop_body fromisoformat cfg local_interval ttn_interval
                     tk st))) <= 1)%nat
  /\ fired Fetch_ttn_stats
       (fst (fst (loop_body fromisoformat cfg local_interval ttn_interval
                    tk st)))
     = (if Qle_bool ttn_interval (tk_time tk - last_ttn st) then 1 else 0)%nat.
Proof.
  intros Hpos. split; [|split].
  - intros last1 Hv. apply ttn_block_2_skipped.
    eapply guard_after_block_1; eassumption.
  - rewrite loop_body_remote by assumption.
    destruct (Qle_bool ttn_interval (tk_time tk - last_ttn st)); lia.
  - now apply loop_body_remote.
Qed.

Lemma second_block_never_runs_witness :
  (fired Fetch_ttn_stats
     (fst (fst (loop_body fromisoformat_rfc3339 default_config 5 10
                  {| tk_time := 1700000000;
                     tk_first :=
                       {| env_http := Ok JNull;
                          env_utcnow := 63900787811345000;
                          env_stamp := "2025-12-07T10:50:11";
                          env_client := fun _ _ => Ok tt |};
                     tk_second :=
                       {| env_http := Ok JNull;
                          env_utcnow := 63900787811345000;
                          env_stamp := "2025-12-07T10:50:11";
                          env_client := fun _ _ => Ok tt |};
                     tk_interrupt := false |}
                  fresh))) <= 1)%nat.
Proof.
  apply (second_block_never_runs fromisoformat_rfc3339 default_config 5 10).
  reflexivity.
Defined.

Lemma run_loop_last (fromisoformat : string -> result datetime)
  (cfg : config) (local_interval ttn_interval : Q) (tk : tick) (st : sched) :
  fst (run_loop fromisoformat cfg local_interval ttn_interval [tk] st) =
  [fst (fst (loop_body fromisoformat cfg local_interval ttn_interval tk st))].
Proof.
  cbn [run_loop].
  destruct (loop_body fromisoformat cfg local_interval ttn_interval tk st)
    as [[tr st'] [| |]]; reflexivity.
Qed.

(** An iteration whose guard is false only sleeps. *)
Lemma loop_body_idle (fromisoformat : string -> result datetime)
  (cfg : config) (local_interval ttn_interval : Q) (tk : tick) (st : sched) :
  Qle_bool ttn_interval (tk_time tk - last_ttn st) = false ->
  tk_interrupt tk = false ->
  loop_body fromisoformat cfg local_interval ttn_interval tk st =
  ([Sleep 1], st, Continue).
Proof.
  intros G Hi. unfold loop_body, loop_try, ttn_block_1, ttn_block_2.
  rewrite G. cbn [ret set_last_ttn last_ttn]. rewrite G, Hi.
  destruct st; reflexivity.
Qed.

Lemma run_loop_idle (fromisoformat : string -> result datetime)
  (cfg : config) (local_interval ttn_interval : Q) (tk : tick)
  (rest : list tick) (st : sched) :
  Qle_bool ttn_interval (tk_time tk - last_ttn st) = false ->
  tk_interrupt tk = false ->
  fst (run_loop fromisoformat cfg local_interval ttn_interval (tk :: rest) st)
  = [Sleep 1]
      :: fst (run_loop fromisoformat cfg local_interval ttn_interval rest st).
Proof.
  intros G Hi. cbn [run_loop]. rewrite loop_body_idle by assumption.
  destruct (run_loop fromisoformat cfg local_interval ttn_interval rest st);
    reflexivity.
Qed.

Lemma run_loop_no_local (fromisoformat : string -> result datetime)
  (cfg : config) (local_interval ttn_interval : Q) (ticks : list tick) :
  forall st,
    Forall (fun tr => fired Get_gateway_stats tr = 0%nat)
      (fst (run_loop fromisoformat cfg local_interval ttn_interval ticks st)).
Proof.
  induction ticks as [|tk rest IH]; intros st; [constructor|].
  cbn [run_loop].
  pose proof (loop_body_no_local fromisoformat cfg local_interval
                ttn_interval tk st) as H.
  destruct (loop_body fromisoformat cfg local_interval ttn_interval tk st)
    as [[tr st'] c]. cbn [fst] in H.
  destruct c.
  - specialize (IH st').
    destruct (run_loop fromisoformat cfg local_interval ttn_interval rest st')
      as [trs st'']. cbn [fst] in *. now constructor.
  - cbn [fst]. now repeat constructor.
  - cbn [fst]. now repeat constructor.
Qed.

(** C1, on the code.  Started fresh and run for 11 iterations whose clock
    reads 0, 1, ..., 10 s, the loop enters the remote chain once, in the
    iteration at 10 s, and never enters the local chain
    ([get_gateway_stats]): not at 5 s, not at 10 s, and in no iteration of
    any run. *)
Theorem local_chain_never_fires
  (fromisoformat : string -> result datetime) (cfg : config)
  (env : remote_env) :
  let traces := fst (publish_stats fromisoformat cfg (heartbeat env 11)) in
  map (fired Fetch_ttn_stats) traces = [0; 0; 0; 0; 0; 0; 0; 0; 0; 0; 1]%nat
  /\ map (fired Get_gateway_stats) traces
     = [0; 0; 0; 0; 0; 0; 0; 0; 0; 0; 0]%nat
  /\ (forall ticks,
         Forall (fun tr => fired Get_gateway_stats tr = 0%nat)
           (fst (publish_stats fromisoformat cfg ticks))).
Proof.
  cbv zeta. unfold publish_stats, heartbeat. cbn [map seq].
  do 10 (rewrite run_loop_idle by reflexivity).
  rewrite run_loop_last. cbn [map].
  rewrite loop_body_no_local.
  rewrite loop_body_remote by reflexivity.
  repeat split.
  intros ticks. apply run_loop_no_local.
Qed.

(* ========================================================================= *)
(** * Further properties *)

(* ------------------------------------------------------------------------- *)
(** ** More on the log parser *)

Lemma count_permutation (p : text -> bool) (l1 l2 : list text) :
  Permutation l1 l2 -> count p l1 = count p l2.
Proof.
  induction 1 as [|x l l' _ IH|x y l|l l' l'' _ IH1 _ IH2].
  - reflexivity.
  - now rewrite !count_cons, IH.
  - rewrite !count_cons. lia.
  - now rewrite IH1.
Qed.

Lemma count_bounds (p : text -> bool) (lines : list text) :
  0 <= count p lines <= Z.of_nat (List.length lines).
Proof.
  unfold count. pose proof (filter_length_le p lines). lia.
Qed.

(** X1. The counts of [parse_log_lines] are additive over concatenation:
    parsing two windows one after the other gives the sums of their
    counts. *)
Theorem parse_log_lines_additive (debug : bool) (l1 l2 : list text) :
  exists c1 c2 c,
    value (parse_log_lines debug l1) = Ok c1
    /\ value (parse_log_lines debug l2) = Ok c2
    /\ value (parse_log_lines debug (l1 ++ l2)) = Ok c
    /\ rx c = rx c1 + rx c2
    /\ tx c = tx c1 + tx c2.
Proof.
  do 3 eexists. rewrite !parse_log_lines_value.
  split; [reflexivity|]. split; [reflexivity|]. split; [reflexivity|].
  cbn [rx tx]. now rewrite !count_app.
Qed.

(** X2. The counts do not depend on the order of the lines. *)
Theorem parse_log_lines_order (debug : bool) (l1 l2 : list text) :
  Permutation l1 l2 ->
  value (parse_log_lines debug l1) = value (parse_log_lines debug l2).
Proof.
  intros Hp. rewrite !parse_log_lines_value.
  rewrite (count_permutation is_rx _ _ Hp).
  now rewrite (count_permutation is_tx _ _ Hp).
Qed.

Lemma parse_log_lines_order_witness :
  value (parse_log_lines false
           (map text_of_string ["[S2E:VERB] RX a"; ""; "[S2E:VERB] TX b"])) =
  value (parse_log_lines false
           (map text_of_string ["[S2E:VERB] TX b"; "[S2E:VERB] RX a"; ""])).
Proof.
  apply (parse_log_lines_order false
           (map text_of_string ["[S2E:VERB] RX a"; ""; "[S2E:VERB] TX b"])
           (map text_of_string ["[S2E:VERB] TX b"; "[S2E:VERB] RX a"; ""])).
  apply Permutation_map.
  apply perm_trans with ["[S2E:VERB] RX a"; "[S2E:VERB] TX b"; ""].
  - apply perm_skip. apply perm_swap.
  - apply perm_swap.
Defined.

(** X3. [parse_log_lines] never raises; each count lies between 0 and the
    number of lines; and lines that do not hold "[S2E:" count for
    nothing. *)
Theorem parse_log_lines_bounds (debug : bool) (lines : list text) :
  exists c,
    value (parse_log_lines debug lines) = Ok c
    /\ 0 <= rx c <= Z.of_nat (List.length lines)
    /\ 0 <= tx c <= Z.of_nat (List.length lines)
    /\ (Forall (fun l => text_contains (text_of_string "[S2E:") l = false)
          lines ->
        rx c = 0 /\ tx c = 0).
Proof.
  eexists. rewrite parse_log_lines_value. split; [reflexivity|].
  cbn [rx tx]. split; [apply count_bounds|]. split; [apply count_bounds|].
  intros Hno. split; apply count_none;
    (eapply Forall_impl; [|exact Hno]); cbn beta; intros l Hl;
    [unfold is_rx|unfold is_tx]; now rewrite Hl.
Qed.

Lemma parse_log_lines_bounds_witness :
  exists c,
    value (parse_log_lines true
             (map text_of_string ["[SYN:INFO] RX TX"; "  "; "RX 868.1"]))
    = Ok c
    /\ rx c = 0 /\ tx c = 0.
Proof.
  destruct (parse_log_lines_bounds true
              (map text_of_string ["[SYN:INFO] RX TX"; "  "; "RX 868.1"]))
    as [c [Hc [_ [_ Hno]]]].
  exists c. split; [exact Hc|]. apply Hno. repeat constructor.
Defined.

(** The prints of one round of the [for] loop. *)
Lemma parse_log_lines_step_trace (debug : bool) (line : text)
  (rest : list text) (rx_count tx_count : Z) :
  trace (parse_log_lines_from debug (line :: rest) rx_count tx_count) =
  ((if debug && is_rx line
    then [Print (DebugFoundRx (firstn 120 line))] else [])
   ++ (if debug && is_tx line
       then [Print (DebugFoundTx (firstn 120 line))] else [])
   ++ trace (parse_log_lines_from debug rest
               (rx_count + if is_rx line then 1 else 0)
               (tx_count + if is_tx line then 1 else 0)))%list.
Proof.
  cbn [parse_log_lines_from].
  destruct (text_truthy (strip line)) eqn:Es; cbn [negb].
  - destruct (is_rx line), (is_tx line), debug; cbn;
      rewrite ?Z.add_0_r;
      match goal with
      | |- context [parse_log_lines_from ?d ?r ?a ?b] =>
          destruct (parse_log_lines_from d r a b); reflexivity
      end.
  - assert (Hrx : is_rx line = false).
    { destruct (is_rx line) eqn:E; [|reflexivity].
      apply is_rx_not_blank in E. congruence. }
    assert (Htx : is_tx line = false).
    { destruct (is_tx line) eqn:E; [|reflexivity].
      apply is_tx_not_blank in E. congruence. }
    rewrite Hrx, Htx, !andb_false_r, !Z.add_0_r. reflexivity.
Qed.

Lemma parse_log_lines_from_trace (debug : bool) (lines : list text) :
  forall rx_count tx_count,
    Z.of_nat
      (List.length (trace (parse_log_lines_from debug lines rx_count tx_count)))
    = if debug then count is_rx lines + count is_tx lines else 0.
Proof.
  induction lines as [|line rest IH]; intros rx_count tx_count.
  - destruct debug; reflexivity.
  - rewrite parse_log_lines_step_trace, !length_app, !Nat2Z.inj_add, IH.
    rewrite !count_cons.
    destruct debug, (is_rx line), (is_tx line); cbn [andb List.length app];
      lia.
Qed.

(** X4. [DEBUG] changes what is printed, not what is counted: the counts
    are the same with and without it; without it nothing is printed, with it
    one line is printed per counted uplink and per counted downlink. *)
Theorem parse_log_lines_debug (lines : list text) :
  value (parse_log_lines true lines) = value (parse_log_lines false lines)
  /\ trace (parse_log_lines false lines) = []
  /\ exists c,
       value (parse_log_lines true lines) = Ok c
       /\ Z.of_nat (List.length (trace (parse_log_lines true lines)))
          = rx c + tx c.
Proof.
  split; [now rewrite !parse_log_lines_value|]. split.
  - apply length_zero_iff_nil.
    pose proof (parse_log_lines_from_trace false lines 0 0) as H.
    unfold parse_log_lines. lia.
  - eexists. rewrite parse_log_lines_value. split; [reflexivity|].
    unfold parse_log_lines. now rewrite parse_log_lines_from_trace.
Qed.

(* ------------------------------------------------------------------------- *)
(** ** More on the local stats *)

Lemma count_positive (p : text -> bool) (lines : list text) :
  1 <= count p lines <-> existsb p lines = true.
Proof.
  induction lines as [|l rest IH]; [cbn; split; [lia|discriminate]|].
  rewrite count_cons. cbn [existsb].
  pose proof (count_bounds p rest) as Hb.
  destruct (p l); cbn [orb]; [split; [reflexivity|lia]|].
  rewrite <- IH. lia.
Qed.

Lemma existsb_skipn (p : text -> bool) (n : nat) (lines : list text) :
  existsb p (skipn n lines) = true -> existsb p lines = true.
Proof.
  intros H. rewrite <- (firstn_skipn n lines), existsb_app, H.
  apply orb_true_r.
Qed.

(** X5. [get_gateway_stats] never raises, whatever the Docker daemon does.
    Its counts lie between 0 and the number of fetched lines, and it reports
    [connected] only together with at least one counted uplink; when at most
    50 lines were fetched the two are equivalent. *)
Theorem local_connected_needs_rx (cfg : config) (docker : docker_api)
  (stamp container_name : string) :
  exists s lines,
    value (get_gateway_stats cfg docker stamp container_name) = Ok s
    /\ value (get_docker_logs cfg docker container_name 100) = Ok lines
    /\ timestamp s = stamp
    /\ 0 <= rx_total s <= Z.of_nat (List.length lines)
    /\ 0 <= tx_total s <= Z.of_nat (List.length lines)
    /\ (local_connected s = true -> 1 <= rx_total s)
    /\ ((List.length lines <= 50)%nat ->
        1 <= rx_total s -> local_connected s = true).
Proof.
  pose proof (get_docker_logs_value cfg docker container_name 100) as Hl.
  do 2 eexists. split.
  { apply get_gateway_stats_value. exact Hl. }
  split; [exact Hl|].
  cbn [timestamp rx_total tx_total local_connected].
  split; [reflexivity|]. split; [apply count_bounds|].
  split; [apply count_bounds|].
  rewrite recent_skipn. split.
  - intros H. apply count_positive. eapply existsb_skipn. exact H.
  - intros Hlen H.
    replace (List.length _ - 50)%nat with 0%nat by lia.
    cbn [skipn]. now apply count_positive.
Qed.

Lemma local_connected_needs_rx_witness :
  exists s lines,
    value (get_gateway_stats default_config
             (fun _ _ =>
                Ok (join_lines
                      (map text_of_string ["[S2E:VERB] RX 868.1MHz"; "idle"])))
             "2025-12-07T10:40:12" "basicstation") = Ok s
    /\ value (get_docker_logs default_config
                (fun _ _ =>
                   Ok (join_lines
                         (map text_of_string
                            ["[S2E:VERB] RX 868.1MHz"; "idle"])))
                "basicstation" 100) = Ok lines
    /\ local_connected s = true.
Proof.
  destruct (local_connected_needs_rx default_config
              (fun _ _ =>
                 Ok (join_lines
                       (map text_of_string
                          ["[S2E:VERB] RX 868.1MHz"; "idle"])))
              "2025-12-07T10:40:12" "basicstation")
    as [s [lines [Hs [Hl [_ [_ [_ [_ Hsmall]]]]]]]].
  exists s, lines. split; [exact Hs|]. split; [exact Hl|].
  assert (Hlines : List.length lines = 2%nat).
  { vm_compute in Hl. now inversion Hl. }
  assert (Hsv : rx_total s = 1).
  { vm_compute in Hs. inversion Hs. reflexivity. }
  apply Hsmall.
  - rewrite Hlines. lia.
  - rewrite Hsv. lia.
Defined.

(** X6. When the daemon fails (container not found, I/O error) the local
    stats are 0, 0 and not connected; the failure is reported once, by
    [get_docker_logs], and nothing is raised. *)
Theorem get_gateway_stats_docker_failure (cfg : config) (docker : docker_api)
  (stamp container_name : string) (e : exn) :
  docker container_name 100 = Raise e ->
  get_gateway_stats cfg docker stamp container_name =
  ((Called Get_gateway_stats :: Print (ErrDockerLogs e)
      :: if DEBUG cfg then [Print (DebugLocalStats 0 0 false)] else [])%list,
   Ok {| rx_total := 0;
         tx_total := 0;
         local_connected := false;
         timestamp := stamp |}).
Proof.
  intros He. unfold get_gateway_stats, get_docker_logs. rewrite He.
  destruct (DEBUG cfg); reflexivity.
Qed.

Lemma get_gateway_stats_docker_failure_witness :
  get_gateway_stats default_config (last_n_lines (fun _ => None))
    "2025-12-07T10:40:12" "basicstation" =
  ([Called Get_gateway_stats;
    Print (ErrDockerLogs (DockerError "No such container"))],
   Ok {| rx_total := 0;
         tx_total := 0;
         local_connected := false;
         timestamp := "2025-12-07T10:40:12" |}).
Proof.
  apply (get_gateway_stats_docker_failure default_config
           (last_n_lines (fun _ => None)) "2025-12-07T10:40:12"
           "basicstation" (DockerError "No such container")).
  reflexivity.
Defined.

(* ------------------------------------------------------------------------- *)
(** ** The TTN fetcher *)

(** X7. [fetch_ttn_stats] never raises.  With the three [TTN_*] settings
    set it returns the document the request gave; a failed request is
    reported and gives [None]. *)
Theorem fetch_ttn_stats_total (cfg : config) (http : http_reply) :
  exists data,
    value (fetch_ttn_stats cfg http) = Ok data
    /\ (forall doc,
           ttn_configured cfg = true -> http = Ok doc -> data = doc)
    /\ (forall e,
           http = Raise e ->
           data = JNull
           /\ (ttn_configured cfg = true ->
               In (Print (ErrFetchTtn e)) (trace (fetch_ttn_stats cfg http))))
    /\ (ttn_configured cfg = false -> data = JNull).
Proof.
  unfold fetch_ttn_stats, ttn_configured.
  destruct (str_truthy (TTN_CLUSTER cfg) && str_truthy (TTN_GATEWAY_ID cfg)
            && str_truthy (TTN_API_KEY cfg));
    destruct (DEBUG cfg); destruct http as [doc|e]; cbn;
    eexists; (split; [reflexivity|]);
    repeat split; try congruence; try discriminate;
    try (intros; match goal with H : Raise _ = Raise _ |- _ =>
                   inversion H; subst; cbn; tauto end).
Qed.

Lemma fetch_ttn_stats_total_witness :
  exists data,
    value (fetch_ttn_stats
             {| TOPIC_PREFIX := "gateways";
                BASICSTATION_CONTAINER := "basicstation";
                DEBUG := false;
                TTN_CLUSTER := "eu1";
                TTN_GATEWAY_ID := "my-gw";
                TTN_API_KEY := "NNSXS.KEY" |}
             (Raise (RequestError "401 Unauthorized"))) = Ok data
    /\ data = JNull.
Proof.
  destruct (fetch_ttn_stats_total
              {| TOPIC_PREFIX := "gateways";
                 BASICSTATION_CONTAINER := "basicstation";
                 DEBUG := false;
                 TTN_CLUSTER := "eu1";
                 TTN_GATEWAY_ID := "my-gw";
                 TTN_API_KEY := "NNSXS.KEY" |}
              (Raise (RequestError "401 Unauthorized")))
    as [data [Hv [_ [Hfail _]]]].
  exists data. split; [exact Hv|].
  apply (Hfail (RequestError "401 Unauthorized")). reflexivity.
Defined.

(** When one of [TTN_CLUSTER], [TTN_GATEWAY_ID], [TTN_API_KEY] is empty the
    fetch is skipped: [None] whatever the endpoint would answer, and no URL
    is printed. *)
Lemma fetch_ttn_stats_unconfigured (cfg : config) (http : http_reply) :
  ttn_configured cfg = false ->
  fetch_ttn_stats cfg http =
  ((Called Fetch_ttn_stats
      :: if DEBUG cfg then [Print DebugTtnIncomplete] else [])%list,
   Ok JNull).
Proof.
  unfold fetch_ttn_stats, ttn_configured. intros ->.
  destruct (DEBUG cfg); reflexivity.
Qed.

(* ------------------------------------------------------------------------- *)
(** ** More on the normaliser *)

(** The three ways [parse_ttn_stats] can go, each independent of the
    parser, the bound and the clock but for the [connected] flag. *)
Lemma parse_ttn_stats_cases (data : json) :
  (truthy data = false)
  \/ (exists e,
         forall iso m now, parse_ttn_stats iso data m now = Raise e)
  \/ (truthy data = true
      /\ exists u d lu ld,
           forall iso m now,
             parse_ttn_stats iso data m now =
             Ok {| uplink_count := u;
                   downlink_count := d;
                   last_uplink_received_at := lu;
                   last_downlink_received_at := ld;
                   connected := derive_connected iso lu u m now |}).
Proof.
  destruct (truthy data) eqn:Ht; [right|now left].
  unfold parse_ttn_stats. rewrite Ht. cbn [negb].
  destruct (get data "uplink_count" (JInt 0)) as [v1|e]; cbn [rbind];
    [|left; eauto].
  destruct (py_int v1) as [u|e]; cbn [rbind]; [|left; eauto].
  destruct (get data "downlink_count" (JInt 0)) as [v2|e]; cbn [rbind];
    [|left; eauto].
  destruct (py_int v2) as [d|e]; cbn [rbind]; [|left; eauto].
  destruct (get data "last_uplink_received_at" (JStr "")) as [lu|e];
    cbn [rbind]; [|left; eauto].
  destruct (get data "last_downlink_received_at" (JStr "")) as [ld|e];
    cbn [rbind]; [|left; eauto].
  right. split; [reflexivity|]. exists u, d, lu, ld. reflexivity.
Qed.

Lemma derive_connected_max_age (iso : string -> result datetime)
  (lu : json) (u : Z) (m1 m2 : Q) (now : Z) :
  (m1 <= m2)%Q ->
  derive_connected iso lu u m1 now = true ->
  derive_connected iso lu u m2 now = true.
Proof.
  intros Hm. unfold derive_connected, age_check.
  destruct (truthy lu); [|trivial].
  destruct lu; cbn [rbind]; trivial.
  destruct (iso _) as [t|e]; cbn [rbind]; trivial.
  destruct (dt_sub _ t) as [age|e]; cbn [rbind]; trivial.
  intros H. apply andb_true_iff in H. destruct H as [Hage Hu].
  apply andb_true_iff. split; [|exact Hu].
  apply Qle_bool_iff. apply Qle_bool_iff in Hage.
  eapply Qle_trans; eassumption.
Qed.

Lemma dt_sub_now_le (now1 now2 : Z) (t : datetime) (age2 : Z) :
  now1 <= now2 ->
  dt_sub (now_utc now2) t = Ok age2 ->
  exists age1, dt_sub (now_utc now1) t = Ok age1 /\ age1 <= age2.
Proof.
  unfold dt_sub, now_utc. cbn [utcoffset wall_us].
  destruct (utcoffset t) as [off|]; [|discriminate].
  intros Hle H. inversion H; subst. eexists. split; [reflexivity|lia].
Qed.

Lemma derive_connected_earlier (iso : string -> result datetime)
  (lu : json) (u : Z) (m : Q) (now1 now2 : Z) :
  now1 <= now2 ->
  derive_connected iso lu u m now2 = true ->
  derive_connected iso lu u m now1 = true.
Proof.
  intros Hle. unfold derive_connected, age_check.
  destruct (truthy lu); [|trivial].
  destruct lu; cbn [rbind]; trivial.
  destruct (iso _) as [t|e]; cbn [rbind]; trivial.
  destruct (dt_sub (now_utc now2) t) as [age2|e] eqn:E2; cbn [rbind].
  - destruct (dt_sub_now_le now1 now2 t age2 Hle E2) as [age1 [E1 Hage]].
    rewrite E1. cbn [rbind].
    intros H. apply andb_true_iff in H. destruct H as [H Hu].
    apply andb_true_iff. split; [|exact Hu].
    apply Qle_bool_iff. apply Qle_bool_iff in H.
    eapply Qle_trans; [apply total_seconds_le; exact Hage|exact H].
  - assert (E1 : dt_sub (now_utc now1) t = Raise e).
    { revert E2. unfold dt_sub, now_utc. cbn [utcoffset wall_us].
      destruct (utcoffset t); [discriminate|trivial]. }
    rewrite E1. trivial.
Qed.

(** X8. Raising the staleness bound never disconnects: if a document is
    normalised to [connected = true] under [max_age_seconds = m1], it is
    under every larger bound, and the other fields are the same. *)
Theorem connected_monotone_in_max_age (iso : string -> result datetime)
  (data : json) (m1 m2 : Q) (now : Z) (r1 : ttn_stats) :
  parse_ttn_stats iso data m1 now = Ok r1 ->
  (m1 <= m2)%Q ->
  exists r2,
    parse_ttn_stats iso data m2 now = Ok r2
    /\ uplink_count r2 = uplink_count r1
    /\ downlink_count r2 = downlink_count r1
    /\ last_uplink_received_at r2 = last_uplink_received_at r1
    /\ last_downlink_received_at r2 = last_downlink_received_at r1
    /\ (connected r1 = true -> connected r2 = true).
Proof.
  intros H1 Hm.
  destruct (parse_ttn_stats_cases data)
    as [Hf|[[e He]|[_ [u [d [lu [ld Hok]]]]]]].
  - rewrite (parse_ttn_stats_falsy iso data m1 now Hf) in H1.
    inversion H1; subst. exists zero_record.
    rewrite (parse_ttn_stats_falsy iso data m2 now Hf). repeat split; trivial.
  - rewrite He in H1. discriminate.
  - rewrite Hok in H1. inversion H1; subst. eexists. split; [apply Hok|].
    cbn. repeat split; trivial. now apply derive_connected_max_age.
Qed.

Lemma connected_monotone_in_max_age_witness :
  exists r2,
    parse_ttn_stats fromisoformat_rfc3339
      (JObj [("uplink_count", JStr "12");
             ("last_uplink_received_at", JStr "2025-12-07T10:40:12.345Z")])
      900 63900787811345000 = Ok r2
    /\ connected r2 = true.
Proof.
  destruct (connected_monotone_in_max_age fromisoformat_rfc3339
              (JObj [("uplink_count", JStr "12");
                     ("last_uplink_received_at",
                      JStr "2025-12-07T10:40:12.345Z")])
              600 900 63900787811345000
              {| uplink_count := 12;
                 downlink_count := 0;
                 last_uplink_received_at := JStr "2025-12-07T10:40:12.345Z";
                 last_downlink_received_at := JStr "";
                 connected := true |}
              eq_refl ltac:(discriminate))
    as [r2 [H2 [_ [_ [_ [_ Hc]]]]]].
  exists r2. split; [exact H2|]. apply Hc. reflexivity.
Defined.

(** X9. Connectivity only decays with time: a document that is normalised
    to [connected = true] at some instant is normalised to
    [connected = true] at every earlier instant; once it is reported stale it
    stays stale. *)
Theorem connected_decays (iso : string -> result datetime)
  (data : json) (m : Q) (now1 now2 : Z) (r2 : ttn_stats) :
  parse_ttn_stats iso data m now2 = Ok r2 ->
  now1 <= now2 ->
  exists r1,
    parse_ttn_stats iso data m now1 = Ok r1
    /\ uplink_count r1 = uplink_count r2
    /\ (connected r2 = true -> connected r1 = true)
    /\ (connected r1 = false -> connected r2 = false).
Proof.
  intros H2 Hle.
  destruct (parse_ttn_stats_cases data)
    as [Hf|[[e He]|[_ [u [d [lu [ld Hok]]]]]]].
  - rewrite (parse_ttn_stats_falsy iso data m now2 Hf) in H2.
    inversion H2; subst. exists zero_record.
    rewrite (parse_ttn_stats_falsy iso data m now1 Hf). repeat split; trivial.
  - rewrite He in H2. discriminate.
  - rewrite Hok in H2. inversion H2; subst. eexists. split; [apply Hok|].
    cbn. split; [reflexivity|].
    assert (Hmono : derive_connected iso lu u m now2 = true ->
                    derive_connected iso lu u m now1 = true)
      by (now apply derive_connected_earlier).
    split; [exact Hmono|].
    destruct (derive_connected iso lu u m now2); [|reflexivity].
    intros H1. rewrite Hmono in H1; [discriminate|reflexivity].
Qed.

Lemma connected_decays_witness :
  exists r1,
    parse_ttn_stats fromisoformat_rfc3339
      (JObj [("uplink_count", JStr "12");
             ("last_uplink_received_at", JStr "2025-12-07T10:40:12.345Z")])
      600 63900787212345000 = Ok r1
    /\ connected r1 = true.
Proof.
  destruct (connected_decays fromisoformat_rfc3339
              (JObj [("uplink_count", JStr "12");
                     ("last_uplink_received_at",
                      JStr "2025-12-07T10:40:12.345Z")])
              600 63900787212345000 63900787811345000
              {| uplink_count := 12;
                 downlink_count := 0;
                 last_uplink_received_at := JStr "2025-12-07T10:40:12.345Z";
                 last_downlink_received_at := JStr "";
                 connected := true |}
              eq_refl ltac:(lia))
    as [r1 [H1 [_ [Hc _]]]].
  exists r1. split; [exact H1|]. apply Hc. reflexivity.
Defined.

(** X10. A timestamp that parses but carries no UTC offset cannot be
    subtracted from the aware current time: the [TypeError] is caught and the
    flag falls back to [uplink > 0], whatever the age of the timestamp and
    the bound. *)
Theorem connected_naive_timestamp (iso : string -> result datetime)
  (fields : list (string * json)) (m : Q) (now u d : Z) (s : string)
  (t : datetime) :
  py_int (dict_get fields "uplink_count" (JInt 0)) = Ok u ->
  py_int (dict_get fields "downlink_count" (JInt 0)) = Ok d ->
  dict_get fields "last_uplink_received_at" (JStr "") = JStr s ->
  s <> "" ->
  iso (replace "Z" "+00:00" s) = Ok t ->
  utcoffset t = None ->
  exists r,
    parse_ttn_stats iso (JObj fields) m now = Ok r
    /\ connected r = (u >? 0).
Proof.
  intros Hu Hd Hs Hne Ht Hoff.
  assert (Hfields : fields <> []).
  { intros ->. cbn in Hs. inversion Hs. congruence. }
  eexists. split; [apply parse_ttn_stats_object; eassumption|].
  cbn [connected]. rewrite Hs. unfold derive_connected, age_check.
  cbn [truthy]. rewrite (str_truthy_nonempty s Hne), Ht. cbn [rbind].
  unfold dt_sub, now_utc. cbn [utcoffset]. rewrite Hoff. reflexivity.
Qed.

Lemma connected_naive_timestamp_witness :
  exists r,
    parse_ttn_stats fromisoformat_rfc3339
      (JObj [("uplink_count", JStr "12");
             ("last_uplink_received_at", JStr "2001-01-01T00:00:00")])
      600 63900787811345000 = Ok r
    /\ connected r = (12 >? 0).
Proof.
  apply (connected_naive_timestamp fromisoformat_rfc3339
           [("uplink_count", JStr "12");
            ("last_uplink_received_at", JStr "2001-01-01T00:00:00")]
           600 63900787811345000 12 0 "2001-01-01T00:00:00"
           {| wall_us := 63113990400000000; utcoffset := None |});
    try reflexivity.
  discriminate.
Defined.

(** X11. A [last_uplink_received_at] that is not a string but is truthy (a
    number, a list, [true]) has no [replace]: the [AttributeError] is caught
    and the flag falls back to [uplink > 0]. *)
Theorem connected_non_string_timestamp (iso : string -> result datetime)
  (fields : list (string * json)) (m : Q) (now u d : Z) (lu : json) :
  py_int (dict_get fields "uplink_count" (JInt 0)) = Ok u ->
  py_int (dict_get fields "downlink_count" (JInt 0)) = Ok d ->
  dict_get fields "last_uplink_received_at" (JStr "") = lu ->
  truthy lu = true ->
  (forall s, lu <> JStr s) ->
  exists r,
    parse_ttn_stats iso (JObj fields) m now = Ok r
    /\ last_uplink_received_at r = lu
    /\ connected r = (u >? 0).
Proof.
  intros Hu Hd Hlu Ht Hns.
  assert (Hfields : fields <> []).
  { intros ->. cbn in Hlu. subst lu. discriminate. }
  eexists. split; [apply parse_ttn_stats_object; eassumption|].
  cbn [connected last_uplink_received_at]. rewrite Hlu.
  split; [reflexivity|].
  unfold derive_connected, age_check. rewrite Ht.
  destruct lu; try reflexivity. now contradiction (Hns s).
Qed.

Lemma connected_non_string_timestamp_witness :
  exists r,
    parse_ttn_stats fromisoformat_rfc3339
      (JObj [("uplink_count", JInt 4);
             ("last_uplink_received_at", JInt 1765104012)])
      600 63900787811345000 = Ok r
    /\ last_uplink_received_at r = JInt 1765104012
    /\ connected r = (4 >? 0).
Proof.
  apply (connected_non_string_timestamp fromisoformat_rfc3339
           [("uplink_count", JInt 4);
            ("last_uplink_received_at", JInt 1765104012)]
           600 63900787811345000 4 0 (JInt 1765104012));
    try reflexivity.
  discriminate.
Defined.

(** The timestamps of the record are the document's values as they came. *)
Lemma parse_ttn_stats_passthrough (iso : string -> result datetime)
  (fields : list (string * json)) (m : Q) (now : Z) (r : ttn_stats) :
  parse_ttn_stats iso (JObj fields) m now = Ok r ->
  last_uplink_received_at r =
  dict_get fields "last_uplink_received_at" (JStr "")
  /\ last_downlink_received_at r =
     dict_get fields "last_downlink_received_at" (JStr "").
Proof.
  destruct fields as [|kv rest] eqn:Ef.
  - cbn. intros H. inversion H. split; reflexivity.
  - rewrite <- Ef. unfold parse_ttn_stats. rewrite Ef at 1.
    cbn [truthy negb get rbind].
    destruct (py_int _); cbn [rbind]; [|discriminate].
    destruct (py_int _); cbn [rbind]; [|discriminate].
    intros H. inversion H. split; reflexivity.
Qed.

(** X12. Only the [connected] flag depends on the clock, the staleness
    bound and the timestamp parser.  Whether the normaliser raises, which
    exception, and the counts and timestamps of the record do not; the two
    timestamps are the document's values as they came, without the [Z]
    rewritten. *)
Theorem parse_ttn_stats_fields_independent
  (iso1 iso2 : string -> result datetime) (data : json) (m1 m2 : Q)
  (now1 now2 : Z) :
  match parse_ttn_stats iso1 data m1 now1,
        parse_ttn_stats iso2 data m2 now2 with
  | Ok r1, Ok r2 =>
      uplink_count r1 = uplink_count r2
      /\ downlink_count r1 = downlink_count r2
      /\ last_uplink_received_at r1 = last_uplink_received_at r2
      /\ last_downlink_received_at r1 = last_downlink_received_at r2
      /\ (forall fields,
             data = JObj fields ->
             last_uplink_received_at r1 =
             dict_get fields "last_uplink_received_at" (JStr "")
             /\ last_downlink_received_at r1 =
                dict_get fields "last_downlink_received_at" (JStr ""))
  | Raise e1, Raise e2 => e1 = e2
  | _, _ => False
  end.
Proof.
  assert (Hpass : forall r1,
             parse_ttn_stats iso1 data m1 now1 = Ok r1 ->
             forall fields,
               data = JObj fields ->
               last_uplink_received_at r1 =
               dict_get fields "last_uplink_received_at" (JStr "")
               /\ last_downlink_received_at r1 =
                  dict_get fields "last_downlink_received_at" (JStr "")).
  { intros r1 H1 fields' Hd. subst data.
    eapply parse_ttn_stats_passthrough. exact H1. }
  destruct (parse_ttn_stats iso1 data m1 now1) as [r1|e1] eqn:E1;
    destruct (parse_ttn_stats iso2 data m2 now2) as [r2|e2] eqn:E2;
    destruct (parse_ttn_stats_cases data)
      as [Hf|[[e He]|[Ht [u [d [lu [ld Hok]]]]]]];
    try (rewrite (parse_ttn_stats_falsy _ data _ _ Hf) in E1);
    try (rewrite (parse_ttn_stats_falsy _ data _ _ Hf) in E2);
    try (rewrite He in E1); try (rewrite He in E2);
    try (rewrite Hok in E1); try (rewrite Hok in E2);
    try discriminate.
  - inversion E1; inversion E2; subst.
    repeat (split; [reflexivity|]).
    now apply Hpass.
  - inversion E1; inversion E2; subst. cbn.
    repeat (split; [reflexivity|]).
    now apply (Hpass _ eq_refl).
  - congruence.
Qed.

(** X13. A reply that is valid JSON but not an object is normalised to the
    zero record when it is falsy ([null], [false], 0, "", []), and makes the
    normaliser raise [AttributeError] otherwise; the empty object is
    normalised to the zero record as well. *)
Theorem parse_ttn_stats_non_object (iso : string -> result datetime)
  (data : json) (m : Q) (now : Z) :
  (forall kv rest, data <> JObj (kv :: rest)) ->
  parse_ttn_stats iso data m now =
  if truthy data then Raise AttributeError else Ok zero_record.
Proof.
  intros Hno. unfold parse_ttn_stats.
  destruct (truthy data) eqn:Ht; [|reflexivity].
  cbn [negb].
  destruct data; try reflexivity.
  destruct fields as [|kv rest]; [discriminate|].
  now contradiction (Hno kv rest).
Qed.

Lemma parse_ttn_stats_non_object_witness :
  parse_ttn_stats fromisoformat_rfc3339 (JStr "Bad Gateway") 600 0 =
  if truthy (JStr "Bad Gateway") then Raise AttributeError else Ok zero_record.
Proof.
  apply (parse_ttn_stats_non_object fromisoformat_rfc3339
           (JStr "Bad Gateway") 600 0).
  discriminate.
Defined.

Lemma prefix_Z (c : ascii) (t : string) :
  prefix "Z" (String c t) = Ascii.eqb c "Z".
Proof.
  cbn [prefix]. destruct (ascii_dec "Z" c) as [<-|Hne].
  - now destruct t.
  - symmetry. apply Ascii.eqb_neq. congruence.
Qed.

Lemma replace_Z_cons (c : ascii) (t : string) :
  replace "Z" "+00:00" (String c t) =
  if Ascii.eqb c "Z" then "+00:00" ++ replace "Z" "+00:00" t
  else String c (replace "Z" "+00:00" t).
Proof.
  unfold replace. cbn [replace_from]. rewrite prefix_Z.
  destruct (Ascii.eqb c "Z"); reflexivity.
Qed.

Lemma contains_Z_cons (c : ascii) (t : string) :
  contains "Z" (String c t) = Ascii.eqb c "Z" || contains "Z" t.
Proof. cbn [contains]. now rewrite prefix_Z. Qed.

(** X14. What the timestamp parser is handed: every [Z] of the timestamp
    becomes [+00:00] and nothing else changes.  So the text handed over
    holds no [Z]; a timestamp without [Z] is handed over as it is; and a
    [Z]-free body followed by [Z] becomes the body followed by [+00:00]. *)
Theorem replace_Z_offset (s : string) :
  contains "Z" (replace "Z" "+00:00" s) = false
  /\ (contains "Z" s = false -> replace "Z" "+00:00" s = s)
  /\ (contains "Z" s = false ->
      replace "Z" "+00:00" (s ++ "Z") = s ++ "+00:00").
Proof.
  induction s as [|c t [IH1 [IH2 IH3]]].
  - repeat split.
  - rewrite replace_Z_cons, contains_Z_cons.
    cbn [append]. rewrite replace_Z_cons.
    destruct (Ascii.eqb c "Z") eqn:E; cbn [orb].
    + split; [exact IH1|]. split; discriminate.
    + split.
      * rewrite contains_Z_cons, E, IH1. reflexivity.
      * split; intros H; [now rewrite IH2|now rewrite IH3].
Qed.

Lemma replace_Z_offset_witness :
  replace "Z" "+00:00" ("2025-12-07T10:40:12.345" ++ "Z") =
  "2025-12-07T10:40:12.345" ++ "+00:00".
Proof.
  apply (proj2 (proj2 (replace_Z_offset "2025-12-07T10:40:12.345"))).
  reflexivity.
Defined.

(* ------------------------------------------------------------------------- *)
(** ** More on the scheduler loop *)

Lemma published_app (tr1 tr2 : list effect) :
  published (tr1 ++ tr2) = (published tr1 ++ published tr2)%list.
Proof.
  induction tr1 as [|e rest IH]; [reflexivity|].
  destruct e; cbn [app published]; now rewrite IH.
Qed.


(** [fetch_ttn_stats] publishes nothing and does not sleep. *)
Lemma fetch_ttn_stats_silent (cfg : config) (http : http_reply) :
  published (trace (fetch_ttn_stats cfg http)) = []
  /\ sleeps (trace (fetch_ttn_stats cfg http)) = [].
Proof.
  unfold fetch_ttn_stats.
  destruct (str_truthy (TTN_CLUSTER cfg) && str_truthy (TTN_GATEWAY_ID cfg)
            && str_truthy (TTN_API_KEY cfg));
    destruct (DEBUG cfg); destruct http as [data|e]; cbn; auto.
Qed.

Section LoopMore.

Variable fromisoformat : string -> result datetime.
Variable cfg : config.

(** Block 1 when its guard holds, the document normalises and the client
    takes every message. *)
Lemma ttn_block_1_healthy (env : remote_env) (ttn_interval now last : Q)
  (data : json) (r : ttn_stats) :
  Qle_bool ttn_interval (now - last) = true ->
  value (fetch_ttn_stats cfg (env_http env)) = Ok data ->
  parse_ttn_stats fromisoformat data 600 (env_utcnow env) = Ok r ->
  (forall topic payload, env_client env topic payload = Ok tt) ->
  ttn_block_1 fromisoformat cfg env ttn_interval now last =
  ((trace (fetch_ttn_stats cfg (env_http env))
    ++ map (fun m => Publish (fst m) (snd m))
         (ttn_messages cfg (env_stamp env) r)
    ++ [Print (TtnLine (uplink_count r) (downlink_count r)
                       (Some (connected r)))])%list,
   Ok now).
Proof.
  intros G Hf Hp Hc. unfold ttn_block_1. rewrite G.
  destruct (fetch_ttn_stats cfg (env_http env)) as [tr0 v].
  cbn [value snd] in Hf. subst v. cbn [trace fst bind lift].
  rewrite Hp. unfold publish. rewrite !Hc. reflexivity.
Qed.

(** X15. On any real clock the first iteration already runs the remote
    chain: a fresh scheduler has [last_ttn = 0.0], so the guard holds as
    soon as [time.time()] is at least the interval. *)
Theorem first_iteration_fires (local_interval ttn_interval : Q) (tk : tick) :
  (0 < ttn_interval)%Q ->
  (ttn_interval <= tk_time tk)%Q ->
  fired Fetch_ttn_stats
    (fst (fst (loop_body fromisoformat cfg local_interval ttn_interval tk
                 fresh))) = 1%nat.
Proof.
  intros Hpos Hnow. rewrite loop_body_remote by exact Hpos.
  assert (G : Qle_bool ttn_interval (tk_time tk - last_ttn fresh) = true).
  { apply Qle_bool_iff. cbn [last_ttn fresh]. lra. }
  now rewrite G.
Qed.

(** X16. A remote run in which nothing fails hands the broker exactly six
    retained messages, in this order: the two counts, the two timestamps,
    the flag as "1" or "0", and the time of the update; it then sets
    [last_ttn] to the clock reading of the iteration. *)
Theorem remote_run_publishes_record (env : remote_env)
  (ttn_interval now last : Q) (data : json) (r : ttn_stats) :
  Qle_bool ttn_interval (now - last) = true ->
  value (fetch_ttn_stats cfg (env_http env)) = Ok data ->
  parse_ttn_stats fromisoformat data 600 (env_utcnow env) = Ok r ->
  (forall topic payload, env_client env topic payload = Ok tt) ->
  published
    (trace (ttn_block_1 fromisoformat cfg env ttn_interval now last)) =
  [(TOPIC_PREFIX cfg ++ "/ttn/uplink_count", JInt (uplink_count r));
   (TOPIC_PREFIX cfg ++ "/ttn/downlink_count", JInt (downlink_count r));
   (TOPIC_PREFIX cfg ++ "/ttn/last_uplink_received_at",
    last_uplink_received_at r);
   (TOPIC_PREFIX cfg ++ "/ttn/last_downlink_received_at",
    last_downlink_received_at r);
   (TOPIC_PREFIX cfg ++ "/ttn/connected",
    JStr (if connected r then "1" else "0"));
   (TOPIC_PREFIX cfg ++ "/ttn/last_update", JStr (env_stamp env))]
  /\ value (ttn_block_1 fromisoformat cfg env ttn_interval now last) = Ok now.
Proof.
  intros G Hf Hp Hc.
  rewrite (ttn_block_1_healthy env ttn_interval now last data r G Hf Hp Hc).
  cbn [trace value fst snd]. split; [|reflexivity].
  rewrite published_app, (proj1 (fetch_ttn_stats_silent cfg (env_http env))).
  reflexivity.
Qed.

(** X17. When TTN is not configured, or the request fails, the remote run
    still publishes: the zero record.  The retained counts become 0, the
    timestamps empty and the flag "0". *)
Theorem remote_run_without_data (env : remote_env)
  (ttn_interval now last : Q) :
  Qle_bool ttn_interval (now - last) = true ->
  (forall topic payload, env_client env topic payload = Ok tt) ->
  ttn_configured cfg = false \/ (exists e, env_http env = Raise e) ->
  published
    (trace (ttn_block_1 fromisoformat cfg env ttn_interval now last)) =
  [(TOPIC_PREFIX cfg ++ "/ttn/uplink_count", JInt 0);
   (TOPIC_PREFIX cfg ++ "/ttn/downlink_count", JInt 0);
   (TOPIC_PREFIX cfg ++ "/ttn/last_uplink_received_at", JStr "");
   (TOPIC_PREFIX cfg ++ "/ttn/last_downlink_received_at", JStr "");
   (TOPIC_PREFIX cfg ++ "/ttn/connected", JStr "0");
   (TOPIC_PREFIX cfg ++ "/ttn/last_update", JStr (env_stamp env))].
Proof.
  intros G Hc Hno.
  assert (Hf : value (fetch_ttn_stats cfg (env_http env)) = Ok JNull).
  { destruct Hno as [Hcfg|[e He]].
    - now rewrite fetch_ttn_stats_unconfigured.
    - rewrite He. unfold fetch_ttn_stats.
      destruct (str_truthy (TTN_CLUSTER cfg)
                && str_truthy (TTN_GATEWAY_ID cfg)
                && str_truthy (TTN_API_KEY cfg));
        destruct (DEBUG cfg); reflexivity. }
  rewrite (ttn_block_1_healthy env ttn_interval now last JNull zero_record
             G Hf eq_refl Hc).
  cbn [trace fst].
  rewrite published_app, (proj1 (fetch_ttn_stats_silent cfg (env_http env))).
  reflexivity.
Qed.

End LoopMore.

Lemma first_iteration_fires_witness :
  fired Fetch_ttn_stats
    (fst (fst (loop_body fromisoformat_rfc3339 default_config 5 10
                 {| tk_time := 1765104012;
                    tk_first :=
                      {| env_http := Ok JNull;
                         env_utcnow := 63900787811345000;
                         env_stamp := "2025-12-07T10:50:11";
                         env_client := fun _ _ => Ok tt |};
                    tk_second :=
                      {| env_http := Ok JNull;
                         env_utcnow := 63900787811345000;
                         env_stamp := "2025-12-07T10:50:11";
                         env_client := fun _ _ => Ok tt |};
                    tk_interrupt := false |}
                 fresh))) = 1%nat.
Proof.
  apply (first_iteration_fires fromisoformat_rfc3339 default_config 5 10);
    [reflexivity|discriminate].
Defined.

Lemma remote_run_publishes_record_witness :
  published
    (trace (ttn_block_1 fromisoformat_rfc3339
              {| TOPIC_PREFIX := "gateways";
                 BASICSTATION_CONTAINER := "basicstation";
                 DEBUG := false;
                 TTN_CLUSTER := "eu1";
                 TTN_GATEWAY_ID := "my-gw";
                 TTN_API_KEY := "NNSXS.KEY" |}
              {| env_http :=
                   Ok (JObj [("uplink_count", JStr "12");
                             ("last_uplink_received_at",
                              JStr "2025-12-07T10:40:12.345Z")]);
                 env_utcnow := 63900787811345000;
                 env_stamp := "2025-12-07T10:50:11";
                 env_client := fun _ _ => Ok tt |}
              10 1765104611 0)) =
  [("gateways/ttn/uplink_count", JInt 12);
   ("gateways/ttn/downlink_count", JInt 0);
   ("gateways/ttn/last_uplink_received_at", JStr "2025-12-07T10:40:12.345Z");
   ("gateways/ttn/last_downlink_received_at", JStr "");
   ("gateways/ttn/connected", JStr "1");
   ("gateways/ttn/last_update", JStr "2025-12-07T10:50:11")].
Proof.
  apply (remote_run_publishes_record fromisoformat_rfc3339
           {| TOPIC_PREFIX := "gateways";
              BASICSTATION_CONTAINER := "basicstation";
              DEBUG := false;
              TTN_CLUSTER := "eu1";
              TTN_GATEWAY_ID := "my-gw";
              TTN_API_KEY := "NNSXS.KEY" |}
           {| env_http :=
                Ok (JObj [("uplink_count", JStr "12");
                          ("last_uplink_received_at",
                           JStr "2025-12-07T10:40:12.345Z")]);
              env_utcnow := 63900787811345000;
              env_stamp := "2025-12-07T10:50:11";
              env_client := fun _ _ => Ok tt |}
           10 1765104611 0
           (JObj [("uplink_count", JStr "12");
                  ("last_uplink_received_at",
                   JStr "2025-12-07T10:40:12.345Z")])
           {| uplink_count := 12;
              downlink_count := 0;
              last_uplink_received_at := JStr "2025-12-07T10:40:12.345Z";
              last_downlink_received_at := JStr "";
              connected := true |});
    reflexivity.
Defined.

Lemma remote_run_without_data_witness :
  published
    (trace (ttn_block_1 fromisoformat_rfc3339 default_config
              {| env_http := Ok (JObj [("uplink_count", JStr "12")]);
                 env_utcnow := 63900787811345000;
                 env_stamp := "2025-12-07T10:50:11";
                 env_client := fun _ _ => Ok tt |}
              10 1765104611 0)) =
  [("gateways/ttn/uplink_count", JInt 0);
   ("gateways/ttn/downlink_count", JInt 0);
   ("gateways/ttn/last_uplink_received_at", JStr "");
   ("gateways/ttn/last_downlink_received_at", JStr "");
   ("gateways/ttn/connected", JStr "0");
   ("gateways/ttn/last_update", JStr "2025-12-07T10:50:11")].
Proof.
  apply (remote_run_without_data fromisoformat_rfc3339 default_config
           {| env_http := Ok (JObj [("uplink_count", JStr "12")]);
              env_utcnow := 63900787811345000;
              env_stamp := "2025-12-07T10:50:11";
              env_client := fun _ _ => Ok tt |}
           10 1765104611 0).
  - reflexivity.
  - reflexivity.
  - left. reflexivity.
Defined.









Section LoopFailures.

Variable fromisoformat : string -> result datetime.
Variable cfg : config.



(** X18. Messages go out in the fixed order and stop at the first one the
    client rejects: what a remote run has published is always a prefix of
    the six messages of the record; the run ends normally, and [last_ttn] is
    set, only when all six went out, and otherwise raises what the client
    raised on the first message left. *)
Theorem publishes_stop_at_first_rejection (env : remote_env)
  (ttn_interval now last : Q) (data : json) (r : ttn_stats) :
  Qle_bool ttn_interval (now - last) = true ->
  value (fetch_ttn_stats cfg (env_http env)) = Ok data ->
  parse_ttn_stats fromisoformat data 600 (env_utcnow env) = Ok r ->
  exists rest,
    ttn_messages cfg (env_stamp env) r =
    (published
       (trace (ttn_block_1 fromisoformat cfg env ttn_interval now last))
     ++ rest)%list
    /\ match rest with
       | [] =>
           value (ttn_block_1 fromisoformat cfg env ttn_interval now last)
           = Ok now
       | (topic, payload) :: _ =>
           exists e,
             env_client env topic payload = Raise e
             /\ value (ttn_block_1 fromisoformat cfg env ttn_interval now
                         last) = Raise e
       end.
Proof.
  intros G Hf Hp. unfold ttn_block_1. rewrite G.
  pose proof (proj1 (fetch_ttn_stats_silent cfg (env_http env))) as Hs.
  destruct (fetch_ttn_stats cfg (env_http env)) as [tr0 v].
  cbn [value snd trace fst] in Hf, Hs. subst v.
  cbn [bind lift]. rewrite Hp. unfold publish, ttn_messages.
  repeat match goal with
         | |- context [env_client env ?t ?p] =>
             let E := fresh "E" in
             destruct (env_client env t p) as [[]|?e] eqn:E;
             cbn [bind emit lift ret app trace value fst snd]
         end;
    rewrite published_app, Hs;
    cbn [published app];
    eexists; (split; [reflexivity|]); cbn beta iota; eauto.
Qed.




(** An iteration whose first block raises. *)
Lemma loop_try_raises (ttn_interval : Q) (tk : tick) (st : sched) (e : exn) :
  value (ttn_block_1 fromisoformat cfg (tk_first tk) ttn_interval
           (tk_time tk) (last_ttn st)) = Raise e ->
  loop_try fromisoformat cfg ttn_interval tk st =
  (trace (ttn_block_1 fromisoformat cfg (tk_first tk) ttn_interval
            (tk_time tk) (last_ttn st)), st, Some e).
Proof.
  intros He. unfold loop_try.
  destruct (ttn_block_1 fromisoformat cfg (tk_first tk) ttn_interval
              (tk_time tk) (last_ttn st)) as [tr1 r1].
  cbn [value snd] in He. subst r1. reflexivity.
Qed.

(** X19. A remote run that raises (a count [int()] rejects, a message the
    client rejects) does not stop the loop and is not rate limited: the
    iteration reports the error, sleeps 5 s instead of 1 s and leaves
    [last_ttn] as it was, so every later iteration runs the chain again
    until one succeeds.  Only a [KeyboardInterrupt] during these 5 s ends
    the run: nothing catches it. *)
Theorem failed_run_is_retried (local_interval ttn_interval : Q)
  (tk : tick) (st : sched) (e : exn) :
  (0 < ttn_interval)%Q ->
  value (ttn_block_1 fromisoformat cfg (tk_first tk) ttn_interval
           (tk_time tk) (last_ttn st)) = Raise e ->
  (tk_interrupt tk = false ->
   loop_body fromisoformat cfg local_interval ttn_interval tk st =
   ((trace (ttn_block_1 fromisoformat cfg (tk_first tk) ttn_interval
              (tk_time tk) (last_ttn st))
     ++ [Print (ErrPublishLoop e); Sleep 5])%list,
    st, Continue))
  /\ (tk_interrupt tk = true ->
      loop_body fromisoformat cfg local_interval ttn_interval tk st =
      ((trace (ttn_block_1 fromisoformat cfg (tk_first tk) ttn_interval
                 (tk_time tk) (last_ttn st))
        ++ [Print (ErrPublishLoop e)])%list,
       st, Propagate))
  /\ forall tk',
       (tk_time tk <= tk_time tk')%Q ->
       fired Fetch_ttn_stats
         (fst (fst (loop_body fromisoformat cfg local_interval ttn_interval
                      tk' st))) = 1%nat.
Proof.
  intros Hpos He.
  assert (G : Qle_bool ttn_interval (tk_time tk - last_ttn st) = true).
  { destruct (Qle_bool ttn_interval (tk_time tk - last_ttn st)) eqn:G;
      [reflexivity|].
    unfold ttn_block_1 in He. rewrite G in He. discriminate. }
  split; [|split].
  - intros Hi. unfold loop_body.
    rewrite (loop_try_raises ttn_interval tk st e He), Hi. reflexivity.
  - intros Hi. unfold loop_body.
    rewrite (loop_try_raises ttn_interval tk st e He), Hi. reflexivity.
  - intros tk' Hlater. rewrite loop_body_remote by exact Hpos.
    assert (G' : Qle_bool ttn_interval (tk_time tk' - last_ttn st) = true).
    { apply Qle_bool_iff. apply Qle_bool_iff in G. lra. }
    now rewrite G'.
Qed.


(** The loop is left only by an interrupted iteration. *)
Lemma loop_body_leaves (local_interval ttn_interval : Q) (tk : tick)
  (st : sched) :
  snd (loop_body fromisoformat cfg local_interval ttn_interval tk st)
  <> Continue ->
  tk_interrupt tk = true.
Proof.
  unfold loop_body.
  destruct (loop_try fromisoformat cfg ttn_interval tk st)
    as [[tr st'] [e|]];
    destruct (tk_interrupt tk); cbn [snd]; congruence.
Qed.

End LoopFailures.

Lemma publishes_stop_at_first_rejection_witness :
  exists rest,
    ttn_messages
      {| TOPIC_PREFIX := "gateways";
         BASICSTATION_CONTAINER := "basicstation";
         DEBUG := false;
         TTN_CLUSTER := "eu1";
         TTN_GATEWAY_ID := "my-gw";
         TTN_API_KEY := "NNSXS.KEY" |}
      "2025-12-07T10:50:11"
      {| uplink_count := 12;
         downlink_count := 0;
         last_uplink_received_at := JArr [JInt 2025; JInt 12];
         last_downlink_received_at := JStr "";
         connected := true |} =
    ([("gateways/ttn/uplink_count", JInt 12);
      ("gateways/ttn/downlink_count", JInt 0)] ++ rest)%list.
Proof.
  destruct (publishes_stop_at_first_rejection fromisoformat_rfc3339
              {| TOPIC_PREFIX := "gateways";
                 BASICSTATION_CONTAINER := "basicstation";
                 DEBUG := false;
                 TTN_CLUSTER := "eu1";
                 TTN_GATEWAY_ID := "my-gw";
                 TTN_API_KEY := "NNSXS.KEY" |}
              {| env_http :=
                   Ok (JObj [("uplink_count", JStr "12");
                             ("last_uplink_received_at",
                              JArr [JInt 2025; JInt 12])]);
                 env_utcnow := 63900787811345000;
                 env_stamp := "2025-12-07T10:50:11";
                 env_client :=
                   fun _ payload =>
                     match payload with
                     | JArr _ | JObj _ => Raise TypeError
                     | _ => Ok tt
                     end |}
              10 1765104611 0
              (JObj [("uplink_count", JStr "12");
                     ("last_uplink_received_at", JArr [JInt 2025; JInt 12])])
              {| uplink_count := 12;
                 downlink_count := 0;
                 last_uplink_received_at := JArr [JInt 2025; JInt 12];
                 last_downlink_received_at := JStr "";
                 connected := true |}
              eq_refl eq_refl eq_refl)
    as [rest [Hrest _]].
  exists rest. exact Hrest.
Defined.

Lemma failed_run_is_retried_witness :
  snd (loop_body fromisoformat_rfc3339
         {| TOPIC_PREFIX := "gateways";
            BASICSTATION_CONTAINER := "basicstation";
            DEBUG := false;
            TTN_CLUSTER := "eu1";
            TTN_GATEWAY_ID := "my-gw";
            TTN_API_KEY := "NNSXS.KEY" |}
         5 10
         {| tk_time := 1765104611;
            tk_first :=
              {| env_http := Ok (JObj [("uplink_count", JStr "abc")]);
                 env_utcnow := 63900787811345000;
                 env_stamp := "2025-12-07T10:50:11";
                 env_client := fun _ _ => Ok tt |};
            tk_second :=
              {| env_http := Ok (JObj [("uplink_count", JStr "abc")]);
                 env_utcnow := 63900787811345000;
                 env_stamp := "2025-12-07T10:50:11";
                 env_client := fun _ _ => Ok tt |};
            tk_interrupt := false |}
         fresh) = Continue.
Proof.
  rewrite (proj1 (failed_run_is_retried fromisoformat_rfc3339
                    {| TOPIC_PREFIX := "gateways";
                       BASICSTATION_CONTAINER := "basicstation";
                       DEBUG := false;
                       TTN_CLUSTER := "eu1";
                       TTN_GATEWAY_ID := "my-gw";
                       TTN_API_KEY := "NNSXS.KEY" |}
                    5 10
                    {| tk_time := 1765104611;
                       tk_first :=
                         {| env_http :=
                              Ok (JObj [("uplink_count", JStr "abc")]);
                            env_utcnow := 63900787811345000;
                            env_stamp := "2025-12-07T10:50:11";
                            env_client := fun _ _ => Ok tt |};
                       tk_second :=
                         {| env_http :=
                              Ok (JObj [("uplink_count", JStr "abc")]);
                            env_utcnow := 63900787811345000;
                            env_stamp := "2025-12-07T10:50:11";
                            env_client := fun _ _ => Ok tt |};
                       tk_interrupt := false |}
                    fresh ValueError eq_refl eq_refl) eq_refl).
  reflexivity.
Defined.

(** X21. The loop is left only through [KeyboardInterrupt]: whatever fails
    in the iterations, as long as none is interrupted every one of them is
    run and the loop is not left; and when it is left, some iteration was
    interrupted. *)
Theorem loop_left_only_on_interrupt
  (fromisoformat : string -> result datetime) (cfg : config)
  (local_interval ttn_interval : Q) (ticks : list tick) :
  forall st,
    (List.length
       (fst (run_loop fromisoformat cfg local_interval ttn_interval ticks st))
     <= List.length ticks)%nat
    /\ (Forall (fun tk => tk_interrupt tk = false) ticks ->
        List.length
          (fst (run_loop fromisoformat cfg local_interval ttn_interval
                  ticks st))
        = List.length ticks
        /\ loop_exits fromisoformat cfg local_interval ttn_interval ticks st
           = false)
    /\ (loop_exits fromisoformat cfg local_interval ttn_interval ticks st
        = true ->
        Exists (fun tk => tk_interrupt tk = true) ticks).
Proof.
  induction ticks as [|tk rest IH]; intros st.
  - cbn. repeat split; auto. discriminate.
  - unfold loop_exits. cbn [run_loop loop_end List.length].
    pose proof (loop_body_leaves fromisoformat cfg local_interval
                  ttn_interval tk st) as Hb.
    destruct (loop_body fromisoformat cfg local_interval ttn_interval tk st)
      as [[tr st'] c]. cbn [snd] in Hb.
    destruct c.
    + destruct (IH st') as [Hle [Hall Hex]]. unfold loop_exits in Hall, Hex.
      destruct (run_loop fromisoformat cfg local_interval ttn_interval rest
                  st') as [trs st''].
      cbn [fst List.length] in *. split; [lia|]. split.
      * intros HF. inversion HF; subst.
        destruct (Hall H2) as [Hlen Hno]. split; [lia|exact Hno].
      * intros He. apply Exists_cons_tl. now apply Hex.
    + cbn [fst List.length]. split; [lia|]. split.
      * intros HF. inversion HF; subst.
        rewrite Hb in H1; [discriminate|discriminate].
      * intros _. apply Exists_cons_hd. apply Hb. discriminate.
    + cbn [fst List.length]. split; [lia|]. split.
      * intros HF. inversion HF; subst.
        rewrite Hb in H1; [discriminate|discriminate].
      * intros _. apply Exists_cons_hd. apply Hb. discriminate.
Qed.

Lemma loop_left_only_on_interrupt_witness :
  List.length
    (fst (run_loop fromisoformat_rfc3339 default_config 5 10
            (heartbeat {| env_http := Ok JNull;
                          env_utcnow := 63900787811345000;
                          env_stamp := "2025-12-07T10:50:11";
                          env_client := fun _ _ => Raise (MqttError "down") |}
               12)
            fresh))
  = 12%nat.
Proof.
  apply (proj1 (proj2
           (loop_left_only_on_interrupt fromisoformat_rfc3339 default_config
              5 10
              (heartbeat {| env_http := Ok JNull;
                            env_utcnow := 63900787811345000;
                            env_stamp := "2025-12-07T10:50:11";
                            env_client :=
                              fun _ _ => Raise (MqttError "down") |}
                 12)
              fresh))).
  repeat constructor.
Defined.

Section SteadyRun.

Variable fromisoformat : string -> result datetime.
Variable cfg : config.
Variable env : remote_env.
Variable data : json.
Variable r : ttn_stats.

Hypothesis fetch_ok : value (fetch_ttn_stats cfg (env_http env)) = Ok data.
Hypothesis parse_ok :
  parse_ttn_stats fromisoformat data 600 (env_utcnow env) = Ok r.
Hypothesis client_ok :
  forall topic payload, env_client env topic payload = Ok tt.

(** The tick of second [k] in [heartbeat]. *)
Let beat (k : nat) : tick :=
  {| tk_time := inject_Z (Z.of_nat k);
     tk_first := env;
     tk_second := env;
     tk_interrupt := false |}.

Lemma guard_on_seconds (k l : nat) :
  Qle_bool 10 (inject_Z (Z.of_nat k) - inject_Z (Z.of_nat l)) =
  (10 <=? Z.of_nat k - Z.of_nat l).
Proof.
  unfold Qle_bool, Qminus, Qplus, Qopp, inject_Z. cbn [Qnum Qden].
  f_equal; lia.
Qed.

Lemma due_guard (a : nat) :
  (10 <=? Z.of_nat a - Z.of_nat (10 * ((a - 1) / 10))) =
  (Nat.ltb 0 a && Nat.eqb (a mod 10) 0).
Proof.
  pose proof (Nat.div_mod_eq (a - 1) 10) as H1.
  pose proof (Nat.mod_upper_bound (a - 1) 10 ltac:(lia)) as H2.
  pose proof (Nat.div_mod_eq a 10) as H3.
  pose proof (Nat.mod_upper_bound a 10 ltac:(lia)) as H4.
  destruct (Nat.ltb_spec 0 a), (Nat.eqb_spec (a mod 10) 0),
    (Z.leb_spec 10 (Z.of_nat a - Z.of_nat (10 * ((a - 1) / 10))));
    cbn [andb]; try reflexivity; exfalso; lia.
Qed.

Lemma due_next (a : nat) :
  (if Nat.ltb 0 a && Nat.eqb (a mod 10) 0
   then a else 10 * ((a - 1) / 10))%nat
  = (10 * ((S a - 1) / 10))%nat.
Proof.
  pose proof (Nat.div_mod_eq (a - 1) 10) as H1.
  pose proof (Nat.mod_upper_bound (a - 1) 10 ltac:(lia)) as H2.
  pose proof (Nat.div_mod_eq a 10) as H3.
  pose proof (Nat.mod_upper_bound a 10 ltac:(lia)) as H4.
  replace (S a - 1)%nat with a by lia.
  destruct (Nat.ltb_spec 0 a), (Nat.eqb_spec (a mod 10) 0);
    cbn [andb]; lia.
Qed.

(** An iteration in which nothing fails and no interrupt arrives. *)
Lemma loop_body_ok (local_interval ttn_interval : Q) (tk : tick)
  (st : sched) (last1 : Q) :
  (0 < ttn_interval)%Q ->
  tk_interrupt tk = false ->
  value (ttn_block_1 fromisoformat cfg (tk_first tk) ttn_interval
           (tk_time tk) (last_ttn st)) = Ok last1 ->
  loop_body fromisoformat cfg local_interval ttn_interval tk st =
  ((trace (ttn_block_1 fromisoformat cfg (tk_first tk) ttn_interval
             (tk_time tk) (last_ttn st)) ++ [Sleep 1])%list,
   set_last_ttn st last1, Continue).
Proof.
  intros Hpos Hi Hv. unfold loop_body, loop_try.
  pose proof (guard_after_block_1 fromisoformat cfg (tk_first tk)
                ttn_interval (tk_time tk) (last_ttn st) last1 Hpos Hv) as G.
  destruct (ttn_block_1 fromisoformat cfg (tk_first tk) ttn_interval
              (tk_time tk) (last_ttn st)) as [tr1 r1].
  cbn [value snd] in Hv. subst r1. cbn [set_last_ttn last_ttn].
  rewrite (ttn_block_2_skipped fromisoformat cfg _ _ _ _ G), Hi.
  cbn [trace fst]. rewrite app_nil_r. reflexivity.
Qed.

Lemma beat_value (a : nat) (st : sched) :
  value (ttn_block_1 fromisoformat cfg env 10 (inject_Z (Z.of_nat a))
           (last_ttn st)) =
  Ok (if Qle_bool 10 (inject_Z (Z.of_nat a) - last_ttn st)
      then inject_Z (Z.of_nat a) else last_ttn st).
Proof.
  destruct (Qle_bool 10 (inject_Z (Z.of_nat a) - last_ttn st)) eqn:G.
  - now rewrite (ttn_block_1_healthy fromisoformat cfg env 10 _ _ data r G
                   fetch_ok parse_ok client_ok).
  - unfold ttn_block_1. now rewrite G.
Qed.

Lemma steady_run_from (n : nat) :
  forall a st,
    last_ttn st = inject_Z (Z.of_nat (10 * ((a - 1) / 10))) ->
    map (fired Fetch_ttn_stats)
      (fst (run_loop fromisoformat cfg 5 10 (map beat (seq a n)) st))
    = map due (seq a n).
Proof.
  induction n as [|n IH]; intros a st Hst; [reflexivity|].
  assert (Hg : Qle_bool 10 (inject_Z (Z.of_nat a) - last_ttn st) =
               (Nat.ltb 0 a && Nat.eqb (a mod 10) 0)).
  { now rewrite Hst, guard_on_seconds, due_guard. }
  pose proof (loop_body_remote fromisoformat cfg 5 10 (beat a) st eq_refl)
    as Hf.
  pose proof (loop_body_ok 5 10 (beat a) st _ eq_refl eq_refl
                (beat_value a st)) as Hb.
  change (tk_time (beat a)) with (inject_Z (Z.of_nat a)) in Hf.
  rewrite Hg in Hf, Hb. rewrite Hb in Hf. cbn [fst] in Hf.
  cbn [seq map run_loop]. rewrite Hb.
  match goal with
  | |- context [run_loop _ _ _ _ _ ?s] =>
      specialize (IH (S a) s);
      destruct (run_loop fromisoformat cfg 5 10 (map beat (seq (S a) n)) s)
        as [trs st'']
  end.
  cbn [fst map]. f_equal.
  - exact Hf.
  - apply IH. cbn [set_last_ttn last_ttn].
    rewrite <- due_next.
    destruct (Nat.ltb 0 a && Nat.eqb (a mod 10) 0); [reflexivity|exact Hst].
Qed.

(** X22. In a run started at second 0 in which nothing fails, with one
    iteration per second, the remote chain runs exactly in the iterations at
    10 s, 20 s, 30 s, ...: once every [ttn_interval], for any length of the
    run. *)
Theorem remote_chain_every_ten_seconds (n : nat) :
  map (fired Fetch_ttn_stats)
    (fst (publish_stats fromisoformat cfg (heartbeat env n)))
  = map due (seq 0 n).
Proof.
  unfold publish_stats, heartbeat.
  apply (steady_run_from n 0 fresh). reflexivity.
Qed.

End SteadyRun.

Lemma remote_chain_every_ten_seconds_witness :
  map (fired Fetch_ttn_stats)
    (fst (publish_stats fromisoformat_rfc3339 default_config
            (heartbeat {| env_http := Ok JNull;
                          env_utcnow := 63900787811345000;
                          env_stamp := "2025-12-07T10:50:11";
                          env_client := fun _ _ => Ok tt |}
               31)))
  = map due (seq 0 31).
Proof.
  apply (remote_chain_every_ten_seconds fromisoformat_rfc3339 default_config
           {| env_http := Ok JNull;
              env_utcnow := 63900787811345000;
              env_stamp := "2025-12-07T10:50:11";
              env_client := fun _ _ => Ok tt |}
           JNull zero_record).
  - reflexivity.
  - reflexivity.
  - intros topic payload. reflexivity.
Defined.

(* ------------------------------------------------------------------------- *)
(** ** Start and shutdown *)


(** X23. The connection is tried at most three times and no further once
    it succeeds, with a pause of 5 s between two tries and none after the
    last: tries and pauses alternate, starting and ending with a try, and
    every pause is [time.sleep(5)].  [publish_stats] goes on to the loop
    exactly when one of the tries succeeds; after three failures it reports
    that and returns. *)
Theorem connect_with_retry (s : mqtt_settings) (connect : nat -> result unit) :
  exists steps go,
    connect_attempts s connect 3 3 1 = (steps, go)
    /\ (1 <= count_steps is_connect steps <= 3)%nat
    /\ count_steps is_backoff steps = (count_steps is_connect steps - 1)%nat
    /\ (forall k,
           (1 <= k <= 3)%nat ->
           connect k = Ok tt ->
           (forall j, (1 <= j < k)%nat -> exists e, connect j = Raise e) ->
           go = true /\ count_steps is_connect steps = k)
    /\ ((forall k, (1 <= k <= 3)%nat -> exists e, connect k = Raise e) ->
        go = false
        /\ count_steps is_connect steps = 3%nat
        /\ In MaxRetriesReached steps)
    /\ (go = true -> ~ In MaxRetriesReached steps)
    /\ filter (fun x => is_connect x || is_backoff x) steps =
       firstn (2 * count_steps is_connect steps - 1)
         [Connect (MQTT_BROKER s) (MQTT_PORT s) 60; Backoff 5;
          Connect (MQTT_BROKER s) (MQTT_PORT s) 60; Backoff 5;
          Connect (MQTT_BROKER s) (MQTT_PORT s) 60]
    /\ (forall n, In (Backoff n) steps -> n = 5).
Proof.
  cbn [connect_attempts Nat.eqb].
  destruct (connect 1%nat) as [[]|e1] eqn:E1;
    [|destruct (connect 2%nat) as [[]|e2] eqn:E2;
      [|destruct (connect 3%nat) as [[]|e3] eqn:E3]];
    do 2 eexists; (split; [reflexivity|]);
    (split; [cbn; lia|]); (split; [reflexivity|]);
    (split; [|split; [|split; [|split; [reflexivity|]]]]).
  all: try (intros k Hk Hok Hbefore;
            assert (Hcases : k = 1%nat \/ k = 2%nat \/ k = 3%nat) by lia;
            destruct Hcases as [ -> | [ -> | -> ] ];
            try (split; reflexivity);
            try congruence;
            try (destruct (Hbefore 1%nat ltac:(lia)) as [e He]; congruence);
            try (destruct (Hbefore 2%nat ltac:(lia)) as [e He]; congruence)).
  all: try (intros n Hin; cbn in Hin;
            repeat (destruct Hin as [Hin|Hin];
                    [try discriminate Hin; now inversion Hin|]);
            contradiction).
  all: try (intros Hall;
            try (destruct (Hall 1%nat ltac:(lia)) as [e He]; congruence);
            try (destruct (Hall 2%nat ltac:(lia)) as [e He]; congruence);
            try (destruct (Hall 3%nat ltac:(lia)) as [e He]; congruence);
            repeat split; cbn; tauto).
  all: try (intros _; cbn; intuition discriminate).
  all: try discriminate.
Qed.

Lemma connect_with_retry_witness :
  exists steps go,
    connect_attempts
      {| MQTT_BROKER := "broker.local";
         MQTT_PORT := 1883;
         MQTT_USER := "";
         MQTT_PASS := "" |}
      (fun k => if Nat.eqb k 2 then Ok tt else Raise (MqttError "refused"))
      3 3 1 = (steps, go)
    /\ go = true /\ count_steps is_connect steps = 2%nat.
Proof.
  destruct (connect_with_retry
              {| MQTT_BROKER := "broker.local";
                 MQTT_PORT := 1883;
                 MQTT_USER := "";
                 MQTT_PASS := "" |}
              (fun k => if Nat.eqb k 2 then Ok tt
                        else Raise (MqttError "refused")))
    as [steps [go [Hrun [_ [_ [Hfirst _]]]]]].
  exists steps, go. split; [exact Hrun|].
  apply (Hfirst 2%nat).
  - lia.
  - reflexivity.
  - intros j Hj. assert (j = 1%nat) as -> by lia.
    exists (MqttError "refused"). reflexivity.
Defined.

Lemma count_steps_app (p : step -> bool) (l1 l2 : list step) :
  count_steps p (l1 ++ l2) = (count_steps p l1 + count_steps p l2)%nat.
Proof. unfold count_steps. now rewrite filter_app, length_app. Qed.


(** X24. Without a connection nothing runs: when all three tries fail,
    [publish_stats] returns without starting the client loop, without a
    single iteration (so without any publish) and without disconnecting. *)
Theorem no_connection_no_loop (fromisoformat : string -> result datetime)
  (cfg : config) (s : mqtt_settings) (connect : nat -> result unit)
  (ticks : list tick) :
  (forall k, (1 <= k <= 3)%nat -> exists e, connect k = Raise e) ->
  let steps := publish_stats_main fromisoformat cfg s connect ticks in
  count_steps is_iteration steps = 0%nat
  /\ ~ In LoopStart steps
  /\ ~ In LoopStop steps
  /\ ~ In Disconnect steps
  /\ count_steps is_connect steps = 3%nat
  /\ exists before, steps = (before ++ [MaxRetriesReached])%list.
Proof.
  intros Hall. cbv zeta. unfold publish_stats_main.
  destruct (Hall 1%nat ltac:(lia)) as [e1 E1].
  destruct (Hall 2%nat ltac:(lia)) as [e2 E2].
  destruct (Hall 3%nat ltac:(lia)) as [e3 E3].
  cbn [connect_attempts Nat.eqb]. rewrite E1, E2, E3.
  destruct (str_truthy (MQTT_USER s) && str_truthy (MQTT_PASS s));
    cbn [app]; (split; [reflexivity|]);
    (split; [cbn; intuition discriminate|]);
    (split; [cbn; intuition discriminate|]);
    (split; [cbn; intuition discriminate|]);
    (split; [reflexivity|]).
  - eexists (_ :: _ :: _ :: _ :: _ :: _ :: _ :: _ :: _ :: _ :: _ :: [_]).
    reflexivity.
  - eexists (_ :: _ :: _ :: _ :: _ :: _ :: _ :: _ :: _ :: _ :: [_]).
    reflexivity.
Qed.

Lemma no_connection_no_loop_witness :
  count_steps is_iteration
    (publish_stats_main fromisoformat_rfc3339 default_config
       {| MQTT_BROKER := "";
          MQTT_PORT := 1883;
          MQTT_USER := "";
          MQTT_PASS := "" |}
       (fun _ => Raise (MqttError "Name or service not known"))
       (heartbeat {| env_http := Ok JNull;
                     env_utcnow := 63900787811345000;
                     env_stamp := "2025-12-07T10:50:11";
                     env_client := fun _ _ => Ok tt |}
          11))
  = 0%nat.
Proof.
  apply (no_connection_no_loop fromisoformat_rfc3339 default_config
           {| MQTT_BROKER := "";
              MQTT_PORT := 1883;
              MQTT_USER := "";
              MQTT_PASS := "" |}
           (fun _ => Raise (MqttError "Name or service not known"))).
  intros k _. exists (MqttError "Name or service not known"). reflexivity.
Defined.



(* ------------------------------------------------------------------------- *)
(** ** Settings *)

Lemma lower_char_t (c : ascii) :
  lower_char c = "t"%char <-> c = "t"%char \/ c = "T"%char.
Proof.
  destruct c as [[] [] [] [] [] [] [] []]; vm_compute;
    split; intros H; try discriminate H; auto;
    destruct H as [H|H]; discriminate H.
Qed.

Lemma lower_char_r (c : ascii) :
  lower_char c = "r"%char <-> c = "r"%char \/ c = "R"%char.
Proof.
  destruct c as [[] [] [] [] [] [] [] []]; vm_compute;
    split; intros H; try discriminate H; auto;
    destruct H as [H|H]; discriminate H.
Qed.

Lemma lower_char_u (c : ascii) :
  lower_char c = "u"%char <-> c = "u"%char \/ c = "U"%char.
Proof.
  destruct c as [[] [] [] [] [] [] [] []]; vm_compute;
    split; intros H; try discriminate H; auto;
    destruct H as [H|H]; discriminate H.
Qed.

Lemma lower_char_e (c : ascii) :
  lower_char c = "e"%char <-> c = "e"%char \/ c = "E"%char.
Proof.
  destruct c as [[] [] [] [] [] [] [] []]; vm_compute;
    split; intros H; try discriminate H; auto;
    destruct H as [H|H]; discriminate H.
Qed.

(** X26. [DEBUG] is on exactly for the sixteen spellings of "true" in
    upper and lower case.  An unset variable, "1", "yes", "on" or " true"
    leave it off. *)
Theorem debug_only_for_true (v : option string) :
  debug_of_env v = true <->
  exists a b c d,
    v = Some (String a (String b (String c (String d ""))))
    /\ (a = "t" \/ a = "T")%char
    /\ (b = "r" \/ b = "R")%char
    /\ (c = "u" \/ c = "U")%char
    /\ (d = "e" \/ d = "E")%char.
Proof.
  unfold debug_of_env. rewrite String.eqb_eq. split.
  - destruct v as [s|]; [|discriminate].
    destruct s as [|a [|b [|c [|d [|x rest]]]]]; cbn [lower];
      try discriminate.
    intros H. injection H as Ha Hb Hc Hd.
    exists a, b, c, d. split; [reflexivity|].
    rewrite <- lower_char_t, <- lower_char_r, <- lower_char_u,
      <- lower_char_e. auto.
  - intros [a [b [c [d [-> [Ha [Hb [Hc Hd]]]]]]]].
    apply lower_char_t in Ha. apply lower_char_r in Hb.
    apply lower_char_u in Hc. apply lower_char_e in Hd.
    cbn [lower]. now rewrite Ha, Hb, Hc, Hd.
Qed.

Lemma debug_only_for_true_witness : debug_of_env (Some "TrUe") = true.
Proof.
  apply (proj2 (debug_only_for_true (Some "TrUe"))).
  exists "T"%char, "r"%char, "U"%char, "e"%char.
  repeat split; auto.
Defined.
